(** * django-usergroups: the membership, admin, invitation and application
    transitions of [usergroups/options.py] and [usergroups/views.py]

    The views are embedded as functions in a state-and-exception monad over
    the relational store.  A Python [return] ends a view with a response, an
    uncaught Python exception ends it with [inl e]; rows written before the
    exception stay written (the ORM commits statement by statement, there is
    no transaction around a view). *)

From stdpp Require Import base gmap sets list strings fin_maps.

(** ** The relational store *)

(** A group row together with its two many-to-many relations. *)
Record UserGroup := mkUserGroup {
  name : string;
  creator : nat;
  members : gset nat;
  admins : gset nat;
}.

Record EmailInvitation := mkEmailInvitation {
  secret_key : string;
  email : string;
  invitation_group : nat;
  invitation_user : nat;
}.

Record UserGroupApplication := mkUserGroupApplication {
  application_user : nat;
  application_group : nat;
  created : nat;
}.

(** Tables are keyed by primary key.  [auth_user] holds the primary keys of
    the [User] rows; [outbox] records the calls of [notification.send]. *)
Record Database := mkDatabase {
  auth_user : gset nat;
  usergroups : gmap nat UserGroup;
  email_invitations : gmap nat EmailInvitation;
  applications : gmap nat UserGroupApplication;
  outbox : list (gset nat * string);
}.

Definition with_usergroups (f : gmap nat UserGroup → gmap nat UserGroup)
    (db : Database) : Database :=
  {| auth_user := auth_user db; usergroups := f (usergroups db);
     email_invitations := email_invitations db;
     applications := applications db; outbox := outbox db |}.

Definition with_email_invitations
    (f : gmap nat EmailInvitation → gmap nat EmailInvitation)
    (db : Database) : Database :=
  {| auth_user := auth_user db; usergroups := usergroups db;
     email_invitations := f (email_invitations db);
     applications := applications db; outbox := outbox db |}.

Definition with_applications
    (f : gmap nat UserGroupApplication → gmap nat UserGroupApplication)
    (db : Database) : Database :=
  {| auth_user := auth_user db; usergroups := usergroups db;
     email_invitations := email_invitations db;
     applications := f (applications db); outbox := outbox db |}.

Definition with_outbox (f : list (gset nat * string) → list (gset nat * string))
    (db : Database) : Database :=
  {| auth_user := auth_user db; usergroups := usergroups db;
     email_invitations := email_invitations db;
     applications := applications db; outbox := f (outbox db) |}.

(** A model instance held by a view: its primary key and the column values
    read when it was fetched. *)
Record Instance (R : Type) := mkInstance { pk : nat; fields : R }.
Arguments mkInstance {R} _ _.
Arguments pk {R} _.
Arguments fields {R} _.

(** The observations the specification talks about. *)
Definition members_of (db : Database) (group_id : nat) : gset nat :=
  from_option members ∅ (usergroups db !! group_id).

Definition admins_of (db : Database) (group_id : nat) : gset nat :=
  from_option admins ∅ (usergroups db !! group_id).

(** ** Requests and responses *)

Inductive RequestUser :=
| AnonymousUser
| User (id : nat).

(** What form validation makes of [request.POST]; the form classes are the
    framework's (and [usergroups/forms.py]), so only their verdict and the
    cleaned data are kept. *)
Record FormData := mkFormData {
  form_is_valid : bool;
  cleaned_name : string;
  cleaned_invitations : list (string * string);
}.

(** [POST = None] is an empty query dictionary, which Python treats as
    false in [request.POST or None].  [now] is what the clock reads while
    the request is handled. *)
Record HttpRequest := mkHttpRequest {
  method : string;
  user : RequestUser;
  is_ajax : bool;
  POST : option FormData;
  now : nat;
}.

#[warnings="-register-all"]
Inductive Value :=
| VNone
| VBool (b : bool)
| VStr (s : string)
| VGroup (group_pk : nat)
| VUser (user_pk : nat)
| VApplication (application_pk : nat)
| VForm (bound : option FormData)
| VInt (n : nat)
| VDict (entries : list (string * Value)).

Inductive Url :=
| reverse (viewname : string) (slug_arg : string) (args : list nat)
| get_absolute_url (group_pk : nat)
| LOGIN_URL.

Inductive HttpResponse :=
| HttpResponseRedirect (url : Url)
| HttpResponseBadRequest
| HttpResponseForbidden
| direct_to_template (template : string) (extra_context : gmap string Value).

Definition status_code (r : HttpResponse) : nat :=
  match r with
  | HttpResponseRedirect _ => 302
  | HttpResponseBadRequest => 400
  | HttpResponseForbidden => 403
  | direct_to_template _ _ => 200
  end.

Inductive Model :=
| EmailInvitationModel
| UserGroupApplicationModel.

Inductive Exception :=
| Http404
| DoesNotExist (model : Model)
| MultipleObjectsReturned (model : Model)
| NameError (identifier : string)
| AttributeError (message : string).

(** ** The monad of a view *)

Definition Eff (A : Type) : Type := Database → Database * (Exception + A).

Global Instance Eff_ret : MRet Eff := λ A x db, (db, inr x).

Global Instance Eff_bind : MBind Eff := λ A B f m db,
  match m db with
  | (db', inr x) => f x db'
  | (db', inl e) => (db', inl e)
  end.

Definition raise {A} (e : Exception) : Eff A := λ db, (db, inl e).

Definition query {A} (f : Database → A) : Eff A := λ db, (db, inr (f db)).

Definition update (f : Database → Database) : Eff () := λ db, (f db, inr ()).

(** [try: body except ...: handler]; [handler e = None] when no [except]
    clause matches [e], which then propagates. *)
Definition try_except {A} (body : Eff A) (handler : Exception → option (Eff A))
    : Eff A := λ db,
  match body db with
  | (db', inl e) =>
      match handler e with
      | Some h => h db'
      | None => (db', inl e)
      end
  | done => done
  end.

(** What the framework makes of a view's outcome: [Http404] becomes a 404
    response, every other uncaught exception is a server error. *)
Inductive Served :=
| Respond (status : nat)
| ServerError (e : Exception).

Definition serve (outcome : Exception + HttpResponse) : Served :=
  match outcome with
  | inr r => Respond (status_code r)
  | inl Http404 => Respond 404
  | inl e => ServerError e
  end.

(** ** The ORM calls the views make *)

Definition get_object_or_404 {R} (table : Database → gmap nat R) (id : nat)
    : Eff (Instance R) :=
  row ← query (λ db, table db !! id);
  match row with
  | Some r => mret (mkInstance id r)
  | None => raise Http404
  end.

Definition get_user_or_404 (id : nat) : Eff nat :=
  found ← query (λ db, bool_decide (id ∈ auth_user db));
  if found : bool then mret id else raise Http404.

(** [Model.objects.get] with a field lookup: exactly one matching row, or
    an exception. *)
Definition objects_get {R} (model : Model) (table : Database → gmap nat R)
    (P : nat * R → Prop) `{!∀ x, Decision (P x)} : Eff (Instance R) :=
  rows ← query (λ db, map_to_list (filter P (table db)));
  match rows with
  | [] => raise (DoesNotExist model)
  | [(id, r)] => mret (mkInstance id r)
  | _ => raise (MultipleObjectsReturned model)
  end.

(** The related managers [group.members] and [group.admins] read and write
    the store, not the fetched instance. *)
Definition members_all (group : Instance UserGroup) : Eff (gset nat) :=
  query (λ db, members_of db (pk group)).

Definition admins_all (group : Instance UserGroup) : Eff (gset nat) :=
  query (λ db, admins_of db (pk group)).

Definition admins_count (group : Instance UserGroup) : Eff nat :=
  query (λ db, size (admins_of db (pk group))).

Definition set_members (f : gset nat → gset nat) (g : UserGroup) : UserGroup :=
  {| name := name g; creator := creator g;
     members := f (members g); admins := admins g |}.

Definition set_admins (f : gset nat → gset nat) (g : UserGroup) : UserGroup :=
  {| name := name g; creator := creator g;
     members := members g; admins := f (admins g) |}.

Definition members_add (group : Instance UserGroup) (u : nat) : Eff () :=
  update (with_usergroups (alter (set_members (λ s, {[u]} ∪ s)) (pk group))).

Definition members_remove (group : Instance UserGroup) (u : nat) : Eff () :=
  update (with_usergroups (alter (set_members (λ s, s ∖ {[u]})) (pk group))).

Definition admins_add (group : Instance UserGroup) (u : nat) : Eff () :=
  update (with_usergroups (alter (set_admins (λ s, {[u]} ∪ s)) (pk group))).

(** ** The parts of the package that the views call

    [usergroups/models.py], [usergroups/decorators.py] and
    [usergroups/forms.py] are called by the views; what they do is taken
    from the specification. *)

(** Modelled from the spec: [BaseUserGroup.remove_admin] of
    [usergroups/models.py], the admin-removal method: it takes the user out
    of [admins] and leaves [members] alone; removing a user who is no admin
    changes nothing. *)
Definition remove_admin (group : Instance UserGroup) (u : nat) : Eff () :=
  update (with_usergroups (alter (set_admins (λ s, s ∖ {[u]})) (pk group))).

(** Modelled from the spec: [BaseUserGroup.is_admin] of
    [usergroups/models.py]: the user is one of the group's admins. *)
Definition is_admin (group : Instance UserGroup) (u : RequestUser) : Eff bool :=
  adm ← admins_all group;
  mret (match u with User id => bool_decide (id ∈ adm) | AnonymousUser => false end).

(** Modelled from the spec: [group.delete()] of [usergroups/models.py]: the
    group row goes, and its member and admin relations with it. *)
Definition group_delete (group : Instance UserGroup) : Eff () :=
  update (with_usergroups (delete (pk group))).

(** Modelled from the spec: saving the group form writes the cleaned
    name-like column of the row ([usergroups/models.py] holds the columns). *)
Definition form_save (instance : Instance UserGroup) (data : FormData)
    : Eff (Instance UserGroup) :=
  let saved := {| name := cleaned_name data; creator := creator (fields instance);
                  members := members (fields instance);
                  admins := admins (fields instance) |} in
  update (with_usergroups (alter (λ g,
    {| name := cleaned_name data; creator := creator g;
       members := members g; admins := admins g |}) (pk instance)));;
  mret (mkInstance (pk instance) saved).

Definition form_valid (form : option FormData) : bool :=
  match form with
  | Some data => form_is_valid data
  | None => false
  end.

(** Modelled from the spec: [EmailInvitationForm.send_invitations] of
    [usergroups/forms.py]: one [EmailInvitation] row per cleaned address,
    carrying its secret key, the issuing group and the issuing user. *)
Fixpoint send_invitations (group : Instance UserGroup) (issuer : nat)
    (recipients : list (string * string)) : Eff () :=
  match recipients with
  | [] => mret ()
  | (address, key) :: rest =>
      update (with_email_invitations (λ t,
        <[fresh (dom t) := {| secret_key := key; email := address;
                              invitation_group := pk group;
                              invitation_user := issuer |}]> t));;
      send_invitations group issuer rest
  end.

(** Modelled from the spec: [group_admin_required] of
    [usergroups/decorators.py]: it resolves the group from the path and
    requires admin rights of the requesting user, answering 403 otherwise;
    the view receives the group. *)
Definition group_admin_required (request : HttpRequest) (group_id : nat)
    (view : Instance UserGroup → Eff HttpResponse) : Eff HttpResponse :=
  group ← get_object_or_404 usergroups group_id;
  allowed ← is_admin group (user request);
  if allowed : bool then view group else mret HttpResponseForbidden.

(** [django.contrib.auth.decorators.login_required]: an anonymous visitor is
    sent to the log-in page; the view sees [request.user] as a [User] row. *)
Definition login_required (request : HttpRequest)
    (view : nat → Eff HttpResponse) : Eff HttpResponse :=
  match user request with
  | User request_user => view request_user
  | AnonymousUser => mret (HttpResponseRedirect LOGIN_URL)
  end.

(** [notification.send(users, label, context)]. *)
Definition notification_send (users : gset nat) (label : string) : Eff () :=
  update (with_outbox (λ sent, sent ++ [(users, label)])).

Definition has_secret_key (key : string) (row : nat * EmailInvitation) : Prop :=
  secret_key row.2 = key.

Global Instance has_secret_key_dec key row : Decision (has_secret_key key row).
Proof. unfold has_secret_key. apply _. Defined.

Definition application_of (u group_pk : nat) (row : nat * UserGroupApplication)
    : Prop :=
  application_user row.2 = u ∧ application_group row.2 = group_pk.

Global Instance application_of_dec u g row : Decision (application_of u g row).
Proof. unfold application_of. apply _. Defined.

(** [UserGroupApplication.objects.create(user=..., group=...)]: a new row
    under a fresh primary key.  Modelled from the spec: the [created] column
    of [usergroups/models.py] starts at the current time. *)
Definition applications_create (u group_pk stamp : nat)
    : Eff (Instance UserGroupApplication) :=
  id ← query (λ db, fresh (dom (applications db)));
  let row := {| application_user := u; application_group := group_pk;
                created := stamp |} in
  update (with_applications (insert id row));;
  mret (mkInstance id row).

(** [application.created = ...; application.save()]. *)
Definition application_touch (application : Instance UserGroupApplication)
    (stamp : nat) : Eff () :=
  update (with_applications (insert (pk application)
    {| application_user := application_user (fields application);
       application_group := application_group (fields application);
       created := stamp |})).

Definition application_delete (application : Instance UserGroupApplication)
    : Eff () :=
  update (with_applications (delete (pk application))).

(** Python's [extra_context or None]: an empty dictionary counts as false. *)
Definition or_None (extra_context : option (gmap string Value))
    : option (gmap string Value) :=
  match extra_context with
  | Some ctx => if decide (ctx = ∅) then None else Some ctx
  | None => None
  end.

(** ** [usergroups/options.py]: [BaseUserGroupConfiguration] *)

Module Options.

(** [notification] is the module-level name bound at import time: the
    notification application, or [None]. *)
Record BaseUserGroupConfiguration := mkConfiguration {
  slug : string;
  notification : bool;
}.

Definition edit_group_template_name : string := "usergroups/group_form.html".
Definition confirm_action_template_name : string :=
  "usergroups/confirm_action.html".

Definition has_permission (u : nat) (group : Instance UserGroup) : Eff bool :=
  adm ← admins_all group;
  mret (bool_decide (u = creator (fields group)) || bool_decide (u ∈ adm)).

Definition confirmation (self : BaseUserGroupConfiguration)
    (request : HttpRequest) (group : Instance UserGroup) (action : Value)
    (extra_context : option (gmap string Value)) : Eff HttpResponse :=
  let extra_context := default ∅ extra_context in
  mret (direct_to_template confirm_action_template_name
          (<["action" := action]> (<["group" := VGroup (pk group)]> extra_context))).

Definition edit_group (self : BaseUserGroupConfiguration)
    (request : HttpRequest) (group_id : nat)
    (extra_context : option (gmap string Value)) : Eff HttpResponse :=
  login_required request (λ request_user,
    instance ← get_object_or_404 usergroups group_id;
    allowed ← has_permission request_user instance;
    if negb allowed then mret HttpResponseBadRequest else
    let form := POST request in
    if form_valid form then
      instance ← form_save instance (default (mkFormData false "" []) form);
      mret (HttpResponseRedirect
              (reverse "usergroups_group_detail" (slug self) [pk instance]))
    else
      match or_None extra_context with
      | None => raise (AttributeError "'NoneType' object has no attribute 'update'")
      | Some ctx =>
          mret (direct_to_template edit_group_template_name
                  (<["form" := VForm form]> ctx))
      end).

Definition delete_group (self : BaseUserGroupConfiguration)
    (request : HttpRequest) (group_id : nat)
    (extra_context : option (gmap string Value)) : Eff HttpResponse :=
  login_required request (λ request_user,
    group ← get_object_or_404 usergroups group_id;
    allowed ← has_permission request_user group;
    if negb allowed then mret HttpResponseBadRequest else
    if negb (String.eqb (method request) "POST")
    then confirmation self request group (VStr "delete") None else
    group_delete group;;
    mret (HttpResponseRedirect
            (reverse "usergroups_delete_group_done" (slug self) []))).

Definition remove_member (self : BaseUserGroupConfiguration)
    (request : HttpRequest) (group_id user_id : nat)
    (extra_context : option (gmap string Value)) : Eff HttpResponse :=
  login_required request (λ request_user,
    member ← get_user_or_404 user_id;
    group ← get_object_or_404 usergroups group_id;
    allowed ← has_permission request_user group;
    if negb allowed then mret HttpResponseBadRequest else
    if bool_decide (member = request_user)
    then mret (HttpResponseRedirect
                 (reverse "usergroups_leave_group" (slug self) [pk group])) else
    if negb (String.eqb (method request) "POST")
    then confirmation self request group (VStr "delete")
           (Some {["member" := VUser member]}) else
    remove_admin group member;;
    members_remove group member;;
    if is_ajax request
    then raise (NameError "user") else
    mret (HttpResponseRedirect
            (reverse "usergroups_group_detail" (slug self) [pk group]))).

Definition add_admin (self : BaseUserGroupConfiguration)
    (request : HttpRequest) (group_id user_id : nat)
    (extra_context : option (gmap string Value)) : Eff HttpResponse :=
  login_required request (λ request_user,
    group ← get_object_or_404 usergroups group_id;
    member ← get_user_or_404 user_id;
    allowed ← has_permission request_user group;
    if negb allowed then mret HttpResponseBadRequest else
    if negb (String.eqb (method request) "POST")
    then confirmation self request group (VStr "add_admin")
           (Some {["member" := VUser member]}) else
    admins_add group member;;
    current ← members_all group;
    (if bool_decide (member ∉ current) then members_add group member
     else mret ());;
    mret (HttpResponseRedirect
            (reverse "usergroups_group_detail" (slug self) [pk group]))).

Definition revoke_admin (self : BaseUserGroupConfiguration)
    (request : HttpRequest) (group_id user_id : nat)
    (extra_context : option (gmap string Value)) : Eff HttpResponse :=
  login_required request (λ request_user,
    group ← get_object_or_404 usergroups group_id;
    member ← get_user_or_404 user_id;
    allowed ← has_permission request_user group;
    if negb allowed then mret HttpResponseBadRequest else
    if negb (String.eqb (method request) "POST")
    then confirmation self request group (VStr "revoke_admin")
           (Some {["member" := VUser member]}) else
    remove_admin group member;;
    if is_ajax request
    then raise (NameError "json_response") else
    mret (HttpResponseRedirect
            (reverse "usergroups_group_detail" (slug self) [pk group]))).

Definition leave_group (self : BaseUserGroupConfiguration)
    (request : HttpRequest) (group_id : nat)
    (extra_context : option (gmap string Value)) : Eff HttpResponse :=
  login_required request (λ request_user,
    group ← get_object_or_404 usergroups group_id;
    if negb (String.eqb (method request) "POST")
    then confirmation self request group (VStr "leave_group") None else
    count ← admins_count group;
    adm ← admins_all group;
    if bool_decide (count = 1) && bool_decide (request_user ∈ adm)
    then mret (HttpResponseRedirect
                 (reverse "usergroups_delete_group" (slug self) [pk group])) else
    remove_admin group request_user;;
    members_remove group request_user;;
    if is_ajax request
    then raise (NameError "json_response") else
    mret (HttpResponseRedirect
            (reverse "usergroups_group_detail" (slug self) [pk group]))).

(** [locals()] also holds [self], [request] and [extra_context], which the
    template does not read. *)
Definition create_email_invitation (self : BaseUserGroupConfiguration)
    (request : HttpRequest) (group_id : nat)
    (extra_context : option (gmap string Value)) : Eff HttpResponse :=
  login_required request (λ request_user,
    group ← get_object_or_404 usergroups group_id;
    allowed ← has_permission request_user group;
    if negb allowed then mret HttpResponseBadRequest else
    let form := POST request in
    if form_valid form then
      send_invitations group request_user
        (from_option cleaned_invitations [] form);;
      mret (HttpResponseRedirect
              (reverse "usergroups_group_detail" (slug self) [pk group]))
    else
      mret (direct_to_template "usergroups/create_email_invitation.html"
              (<["group" := VGroup (pk group)]>
                 (<["form" := VForm form]> {["group_id" := VInt group_id]})))).

(** The [try] block either ends the view with a response ([Some]) or falls
    through to the statements after it ([None]). *)
Definition validate_email_invitation (self : BaseUserGroupConfiguration)
    (request : HttpRequest) (group_id : nat) (key : string)
    (extra_context : option (gmap string Value)) : Eff HttpResponse :=
  login_required request (λ request_user,
    group ← get_object_or_404 usergroups group_id;
    returned ← try_except
      (invitation ← objects_get EmailInvitationModel email_invitations
                      (has_secret_key key);
       update (with_email_invitations (delete (pk invitation)));;
       mret None)
      (λ e, match e with
            | DoesNotExist EmailInvitationModel =>
                Some (mret (Some (direct_to_template
                                    "usergroups/invalid_invitation.html" ∅)))
            | MultipleObjectsReturned EmailInvitationModel =>
                Some (update (with_email_invitations
                                (filter (λ row, ¬ has_secret_key key row)));;
                      mret None)
            | _ => None
            end);
    match returned with
    | Some response => mret response
    | None =>
        members_add group request_user;;
        mret (HttpResponseRedirect
                (reverse "usergroups_group_joined" (slug self) [pk group]))
    end).

Definition approve_application (self : BaseUserGroupConfiguration)
    (request : HttpRequest) (group_id application_id : nat)
    (extra_context : option (gmap string Value)) : Eff HttpResponse :=
  login_required request (λ request_user,
    group ← get_object_or_404 usergroups group_id;
    application ← get_object_or_404 applications application_id;
    allowed ← has_permission request_user group;
    if negb allowed then mret HttpResponseBadRequest else
    if negb (String.eqb (method request) "POST")
    then confirmation self request group (VStr "approve_application")
           (Some {["application" := VApplication (pk application)]}) else
    members_add group (application_user (fields application));;
    let applicant := application_user (fields application) in
    application_delete application;;
    (if notification self
     then notification_send {[applicant]} "usergroups_application_approved"
     else mret ());;
    if is_ajax request
    then raise (NameError "json_response") else
    mret (HttpResponseRedirect
            (reverse "usergroups_group_detail" (slug self) [pk group]))).

Definition ignore_application (self : BaseUserGroupConfiguration)
    (request : HttpRequest) (group_id application_id : nat)
    (extra_context : option (gmap string Value)) : Eff HttpResponse :=
  login_required request (λ request_user,
    group ← get_object_or_404 usergroups group_id;
    application ← get_object_or_404 applications application_id;
    allowed ← has_permission request_user group;
    if negb allowed then mret HttpResponseBadRequest else
    if negb (String.eqb (method request) "POST")
    then confirmation self request group (VStr "ignore_application")
           (Some {["application" := VApplication (pk application)]}) else
    application_delete application;;
    if is_ajax request
    then raise (NameError "json_response") else
    mret (HttpResponseRedirect
            (reverse "usergroups_group_detail" (slug self) [pk group]))).

(** [options.py] never imports [datetime], so reading the clock in the
    [try] block raises [NameError] before the application is saved; the
    [except] clause catches [DoesNotExist] only.  On a GET the view passes
    [extra_context] where [confirmation] expects the action. *)
Definition apply_to_join_group (self : BaseUserGroupConfiguration)
    (request : HttpRequest) (group_id : nat)
    (extra_context : option (gmap string Value)) : Eff HttpResponse :=
  login_required request (λ request_user,
    group ← get_object_or_404 usergroups group_id;
    if negb (String.eqb (method request) "POST")
    then confirmation self request group
           (from_option (λ ctx, VDict (map_to_list ctx)) VNone extra_context)
           None else
    current ← members_all group;
    let already_member := bool_decide (request_user ∈ current) in
    (if negb already_member then
       try_except
         (application ← objects_get UserGroupApplicationModel applications
                          (application_of request_user (pk group));
          stamp ← raise (NameError "datetime");
          application_touch application stamp)
         (λ e, match e with
               | DoesNotExist UserGroupApplicationModel =>
                   Some (application ← applications_create request_user
                                         (pk group) (now request);
                         if notification self
                         then adm ← admins_all group;
                              notification_send adm "usergroups_application"
                         else mret ())
               | _ => None
               end)
     else mret ());;
    let extra_context : gmap string Value :=
      <["group" := VGroup (pk group)]>
        {["already_member" := VBool already_member]} in
    if is_ajax request
    then raise (NameError "json_response") else
    mret (direct_to_template "usergroups/application.html" extra_context)).

(** *** The registry [GroupOptions]

    Every [GroupOptions] instance takes the one class-level dictionary as
    its [__dict__], so [configurations] is a single mapping shared by all
    instances; it is passed explicitly here. *)

(** A model class handed to [register]: only whether it extends
    [BaseUserGroup] matters to the constructor. *)
Record ModelClass := mkModelClass {
  model_label : string;
  extends_BaseUserGroup : bool;
}.

Inductive RegistryError :=
| ValueError (message : string)
| ConfigurationAlreadyRegistered
| ConfigurationNotRegistered.

(** A configuration instance: the fields [__init__] sets. *)
Record Registered := mkRegistered {
  configuration : BaseUserGroupConfiguration;
  model : ModelClass;
}.

(** [BaseUserGroupConfiguration.__init__(slug, model)]. *)
Definition init (notification_installed : bool) (slug_arg : string)
    (model_arg : ModelClass) : RegistryError + Registered :=
  if negb (extends_BaseUserGroup model_arg)
  then inl (ValueError
              "The model used in usergroups must extend BaseUserGroup.")
  else inr {| configuration := mkConfiguration slug_arg notification_installed;
              model := model_arg |}.

(** [register(key, model, configuration)]: the lookup raises [KeyError] for
    a free key, and only then is the configuration class called. *)
Definition register (configurations : gmap string Registered) (key : string)
    (model_arg : ModelClass)
    (configuration_class : string → ModelClass → RegistryError + Registered)
    : gmap string Registered * (RegistryError + ()) :=
  match configurations !! key with
  | Some _ => (configurations, inl ConfigurationAlreadyRegistered)
  | None =>
      match configuration_class key model_arg with
      | inr instance => (<[key := instance]> configurations, inr ())
      | inl e => (configurations, inl e)
      end
  end.

Definition get (configurations : gmap string Registered) (key : string)
    : RegistryError + Registered :=
  match configurations !! key with
  | Some instance => inr instance
  | None => inl ConfigurationNotRegistered
  end.

End Options.

(** ** [usergroups/views.py]: the views of the fixed [UserGroup] model *)

Module Views.

(** On a valid POST the view redirects without saving the form.  [locals()]
    also holds [request] and [form_class]. *)
Definition edit_group (request : HttpRequest) (group_id : nat)
    : Eff HttpResponse :=
  group_admin_required request group_id (λ group,
    let render (form : option FormData) :=
      mret (direct_to_template "usergroups/group_form.html"
              (<["group" := VGroup (pk group)]>
                 (<["form" := VForm form]> {["group_id" := VInt group_id]}))) in
    if String.eqb (method request) "POST" then
      let form := POST request in
      if form_valid form
      then mret (HttpResponseRedirect (get_absolute_url (pk group)))
      else render form
    else render None).

Definition delete_group (request : HttpRequest) (group_id : nat)
    : Eff HttpResponse :=
  group_admin_required request group_id (λ group,
    let group_name := name (fields group) in
    group_delete group;;
    mret (direct_to_template "usergroups/group_deleted.html"
            {["group_name" := VStr group_name]})).

Definition add_admin (request : HttpRequest) (group_id user_id : nat)
    : Eff HttpResponse :=
  login_required request (λ _,
  group_admin_required request group_id (λ group,
    u ← get_user_or_404 user_id;
    admins_add group u;;
    current ← members_all group;
    (if bool_decide (u ∉ current) then members_add group u else mret ());;
    mret (HttpResponseRedirect (get_absolute_url (pk group))))).

Definition revoke_admin (request : HttpRequest) (group_id user_id : nat)
    : Eff HttpResponse :=
  login_required request (λ _,
  group_admin_required request group_id (λ group,
    u ← get_user_or_404 user_id;
    remove_admin group u;;
    mret (HttpResponseRedirect (get_absolute_url (pk group))))).

Definition remove_member (request : HttpRequest) (group_id user_id : nat)
    : Eff HttpResponse :=
  login_required request (λ _,
  group_admin_required request group_id (λ group,
    u ← get_user_or_404 user_id;
    remove_admin group u;;
    members_remove group u;;
    mret (HttpResponseRedirect (get_absolute_url (pk group))))).

(** Only [login_required] decorates this view: the group is an argument of
    the function and no admin check precedes the body. *)
Definition leave_group (request : HttpRequest) (group : Instance UserGroup)
    (group_id : nat) : Eff HttpResponse :=
  login_required request (λ request_user,
    remove_admin group request_user;;
    members_remove group request_user;;
    mret (HttpResponseRedirect (get_absolute_url (pk group)))).

Definition approve_application (request : HttpRequest)
    (group_id application_id : nat) : Eff HttpResponse :=
  login_required request (λ _,
  group_admin_required request group_id (λ group,
    application ← get_object_or_404 applications application_id;
    members_add group (application_user (fields application));;
    application_delete application;;
    mret (HttpResponseRedirect (get_absolute_url (pk group))))).

Definition apply_to_join_group (request : HttpRequest) (group_id : nat)
    : Eff HttpResponse :=
  login_required request (λ request_user,
    group ← get_object_or_404 usergroups group_id;
    current ← members_all group;
    let already_member := bool_decide (request_user ∈ current) in
    (if negb already_member then
       try_except
         (application ← objects_get UserGroupApplicationModel applications
                          (application_of request_user (pk group));
          application_touch application (now request))
         (λ e, match e with
               | DoesNotExist UserGroupApplicationModel =>
                   Some (applications_create request_user (pk group)
                           (now request);;
                         mret ())
               | _ => None
               end)
     else mret ());;
    let extra_context : gmap string Value :=
      <["group" := VGroup (pk group)]>
        {["already_member" := VBool already_member]} in
    mret (direct_to_template "usergroups/application.html" extra_context)).

End Views.

(** ** Concrete stores used in the examples below *)

Definition alice : nat := 1.
Definition bob : nat := 2.
Definition carol : nat := 3.

Definition the_config : Options.BaseUserGroupConfiguration :=
  Options.mkConfiguration "team" false.

(** Group 10, created by [alice], its sole admin and member. *)
Definition solo_group : UserGroup :=
  {| name := "G"; creator := alice; members := {[alice]}; admins := {[alice]} |}.

Definition solo_db : Database :=
  {| auth_user := {[alice; bob; carol]};
     usergroups := {[10 := solo_group]};
     email_invitations := ∅; applications := ∅; outbox := [] |}.

Definition post_by (u : nat) : HttpRequest :=
  {| method := "POST"; user := User u; is_ajax := false; POST := None; now := 50 |}.

Definition get_by (u : nat) : HttpRequest :=
  {| method := "GET"; user := User u; is_ajax := false; POST := None; now := 50 |}.

Definition post_at (u stamp : nat) : HttpRequest :=
  {| method := "POST"; user := User u; is_ajax := false; POST := None;
     now := stamp |}.

(** Group 10 with a second member, [bob], who is no admin. *)
Definition team_group : UserGroup :=
  {| name := "G"; creator := alice; members := {[alice; bob]};
     admins := {[alice]} |}.

Definition team_db : Database :=
  {| auth_user := {[alice; bob; carol]};
     usergroups := {[10 := team_group]};
     email_invitations := ∅; applications := ∅; outbox := [] |}.

Definition ajax_post_by (u : nat) : HttpRequest :=
  {| method := "POST"; user := User u; is_ajax := true; POST := None; now := 50 |}.

(** ** The vocabulary of the properties *)

(** The actor passes [has_permission] on the stored group. *)
Definition permitted (actor : nat) (g : UserGroup) : Prop :=
  actor = creator g ∨ actor ∈ admins g.

(** The row of a group once [u] has been made admin and member. *)
Definition promoted (u : nat) (g : UserGroup) : UserGroup :=
  set_members (λ s, {[u]} ∪ s) (set_admins (λ s, {[u]} ∪ s) g).

(** What the specification asks of the store after [addAdmin]. *)
Definition admin_and_member (u group_id : nat) (g : UserGroup) (after : Database)
    : Prop :=
  u ∈ admins_of after group_id ∧ u ∈ members_of after group_id ∧
  admins_of after group_id = {[u]} ∪ admins g ∧
  members_of after group_id = {[u]} ∪ members g.

Definition demoted (u : nat) (g : UserGroup) : UserGroup :=
  set_admins (λ s, s ∖ {[u]}) g.

(** What the specification asks of the store after [revokeAdmin]: the user
    is no admin, the admins are the former ones without the user, and the
    member set is the former one. *)
Definition admin_revoked (u group_id : nat) (g : UserGroup) (after : Database)
    : Prop :=
  (u ∉ admins_of after group_id) ∧
  admins_of after group_id = admins g ∖ {[u]} ∧
  members_of after group_id = members g ∧
  (u ∈ members g → u ∈ members_of after group_id).

(** The admin-only operations of [BaseUserGroupConfiguration], with the
    path arguments each takes besides the group. *)
Inductive AdminOperation :=
| EditGroup
| DeleteGroup
| RemoveMember (user_id : nat)
| AddAdmin (user_id : nat)
| RevokeAdmin (user_id : nat)
| CreateEmailInvitation
| ApproveApplication (application_id : nat)
| IgnoreApplication (application_id : nat).

Definition perform (self : Options.BaseUserGroupConfiguration)
    (request : HttpRequest) (group_id : nat)
    (extra_context : option (gmap string Value)) (op : AdminOperation)
    : Eff HttpResponse :=
  match op with
  | EditGroup => Options.edit_group self request group_id extra_context
  | DeleteGroup => Options.delete_group self request group_id extra_context
  | RemoveMember user_id =>
      Options.remove_member self request group_id user_id extra_context
  | AddAdmin user_id =>
      Options.add_admin self request group_id user_id extra_context
  | RevokeAdmin user_id =>
      Options.revoke_admin self request group_id user_id extra_context
  | CreateEmailInvitation =>
      Options.create_email_invitation self request group_id extra_context
  | ApproveApplication application_id =>
      Options.approve_application self request group_id application_id
        extra_context
  | IgnoreApplication application_id =>
      Options.ignore_application self request group_id application_id
        extra_context
  end.

(** The user or application the operation names is in the store (otherwise
    the view answers 404 before it looks at permissions). *)
Definition target_exists (db : Database) (op : AdminOperation) : Prop :=
  match op with
  | RemoveMember user_id | AddAdmin user_id | RevokeAdmin user_id =>
      user_id ∈ auth_user db
  | ApproveApplication application_id | IgnoreApplication application_id =>
      is_Some (applications db !! application_id)
  | EditGroup | DeleteGroup | CreateEmailInvitation => True
  end.

Definition application_context (group_id : nat) (already_member : bool)
    : gmap string Value :=
  <["group" := VGroup group_id]> {["already_member" := VBool already_member]}.

(** The row a first application creates. *)
Definition new_application (u group_id stamp : nat) : UserGroupApplication :=
  {| application_user := u; application_group := group_id; created := stamp |}.

(** The store once the invitations with the key are gone and the user has
    joined the group. *)
Definition redeemed (u group_id : nat) (key : string) (db : Database)
    : Database :=
  with_usergroups (alter (set_members (λ s, {[u]} ∪ s)) group_id)
    (with_email_invitations (filter (λ row, ¬ has_secret_key key row)) db).

Definition joined_response (self : Options.BaseUserGroupConfiguration)
    (group_id : nat) : HttpResponse :=
  HttpResponseRedirect
    (reverse "usergroups_group_joined" (Options.slug self) [group_id]).

(** Two stored invitations that carry the same secret key. *)
Definition dup_db : Database :=
  {| auth_user := {[alice; bob; carol]};
     usergroups := {[10 := solo_group]};
     email_invitations :=
       {[1 := mkEmailInvitation "k" "bob@example.org" 10 alice;
         2 := mkEmailInvitation "k" "carol@example.org" 10 alice]};
     applications := ∅; outbox := [] |}.

(** The redemption rule as the specification words it: a unique key grants
    membership and removes the invitation, an unknown key grants nothing and
    shows the error page, a key held by several invitations removes them all
    and grants nothing. *)
Definition redemption_as_stated : Prop :=
  ∀ self request group_id key ec db u g,
    user request = User u →
    usergroups db !! group_id = Some g →
    (size (filter (has_secret_key key) (email_invitations db)) = 1 →
     u ∈ members_of
           (Options.validate_email_invitation self request group_id key ec db).1
           group_id
     ∧ filter (has_secret_key key)
         (email_invitations
            (Options.validate_email_invitation self request group_id key ec
               db).1) = ∅)
    ∧ (size (filter (has_secret_key key) (email_invitations db)) = 0 →
       members_of
         (Options.validate_email_invitation self request group_id key ec db).1
         group_id = members g
       ∧ (Options.validate_email_invitation self request group_id key ec db).2
         = inr (direct_to_template "usergroups/invalid_invitation.html" ∅))
    ∧ (1 < size (filter (has_secret_key key) (email_invitations db)) →
       filter (has_secret_key key)
         (email_invitations
            (Options.validate_email_invitation self request group_id key ec
               db).1) = ∅
       ∧ members_of
           (Options.validate_email_invitation self request group_id key ec
              db).1 group_id = members g).

(** Every view of [options.py] that takes a group, as one call. *)
Inductive OptionsCall :=
| Admin (op : AdminOperation)
| LeaveGroup
| ValidateEmailInvitation (key : string)
| ApplyToJoinGroup.

Definition options_call (self : Options.BaseUserGroupConfiguration)
    (request : HttpRequest) (group_id : nat)
    (extra_context : option (gmap string Value)) (c : OptionsCall)
    : Eff HttpResponse :=
  match c with
  | Admin op => perform self request group_id extra_context op
  | LeaveGroup => Options.leave_group self request group_id extra_context
  | ValidateEmailInvitation key =>
      Options.validate_email_invitation self request group_id key extra_context
  | ApplyToJoinGroup =>
      Options.apply_to_join_group self request group_id extra_context
  end.



(** The views of [options.py] that act on a POST only. *)
Definition post_gated (c : OptionsCall) : bool :=
  match c with
  | Admin EditGroup | Admin CreateEmailInvitation
  | ValidateEmailInvitation _ => false
  | _ => true
  end.

(** The same request with another AJAX flag. *)
Definition with_ajax (flag : bool) (request : HttpRequest) : HttpRequest :=
  {| method := method request; user := user request; is_ajax := flag;
     POST := POST request; now := now request |}.


(** The row of a group once [u] is out of its admins and its members. *)
Definition removed (u : nat) (g : UserGroup) : UserGroup :=
  set_members (λ s, s ∖ {[u]}) (demoted u g).

(** Three users; [alice] and [bob] administer group 10, [carol] is a plain
    member, and [carol]'s old application (key 7) names another group. *)
Definition board_group : UserGroup :=
  {| name := "B"; creator := alice; members := {[alice; bob; carol]};
     admins := {[alice; bob]} |}.

Definition board_db : Database :=
  {| auth_user := {[alice; bob; carol; 4]};
     usergroups := {[10 := board_group]};
     email_invitations := ∅;
     applications := {[7 := mkUserGroupApplication 4 11 20]};
     outbox := [] |}.

(** The store once an application is approved: the applicant is a member
    of the group named in the path, the application row is gone, and the
    applicant is notified when notifications are installed. *)
Definition approved_store (self : Options.BaseUserGroupConfiguration)
    (group_id application_id applicant : nat) (db : Database) : Database :=
  (if Options.notification self
   then with_outbox
          (λ sent, sent ++ [({[applicant]}, "usergroups_application_approved")])
   else λ d, d)
    (with_applications (delete application_id)
       (with_usergroups (alter (set_members (λ s, {[applicant]} ∪ s)) group_id)
          db)).

(** * Properties *)

(** ** Running the building blocks *)

Ltac eff :=
  unfold mbind, Eff_bind, mret, Eff_ret, query, update, raise; cbn beta iota.

Lemma bind_run {A B} (m : Eff A) (k : A → Eff B) (db : Database) :
  (m ≫= k) db =
  match m db with
  | (db', inr x) => k x db'
  | (db', inl e) => (db', inl e)
  end.
Proof. reflexivity. Qed.

Lemma get_object_or_404_found {R} (table : Database → gmap nat R) id r db :
  table db !! id = Some r →
  get_object_or_404 table id db = (db, inr (mkInstance id r)).
Proof.
  intros Hrow. unfold get_object_or_404. rewrite bind_run. unfold query.
  by rewrite Hrow.
Qed.

Lemma get_user_or_404_found id db :
  id ∈ auth_user db → get_user_or_404 id db = (db, inr id).
Proof.
  intros Hin. unfold get_user_or_404. rewrite bind_run. unfold query.
  by rewrite bool_decide_eq_true_2.
Qed.

Lemma has_permission_run u group db :
  Options.has_permission u group db =
  (db, inr (bool_decide (u = creator (fields group))
            || bool_decide (u ∈ admins_of db (pk group)))).
Proof. reflexivity. Qed.

Lemma not_POST_false (request : HttpRequest) :
  method request = "POST" → negb (String.eqb (method request) "POST") = false.
Proof. intros ->. reflexivity. Qed.

Lemma not_POST_true (request : HttpRequest) :
  method request ≠ "POST" → negb (String.eqb (method request) "POST") = true.
Proof.
  intros Hne. apply negb_true_iff. by apply String.eqb_neq.
Qed.

(** The relations of a group after one of its rows is rewritten. *)
Lemma members_of_alter f group_id g db :
  usergroups db !! group_id = Some g →
  members_of (with_usergroups (alter f group_id) db) group_id = members (f g).
Proof.
  intros Hg. unfold members_of, with_usergroups. simpl.
  by rewrite lookup_alter_eq, Hg.
Qed.

Lemma admins_of_alter f group_id g db :
  usergroups db !! group_id = Some g →
  admins_of (with_usergroups (alter f group_id) db) group_id = admins (f g).
Proof.
  intros Hg. unfold admins_of, with_usergroups. simpl.
  by rewrite lookup_alter_eq, Hg.
Qed.

Lemma members_of_found db group_id g :
  usergroups db !! group_id = Some g → members_of db group_id = members g.
Proof. intros Hg. unfold members_of. by rewrite Hg. Qed.

Lemma admins_of_found db group_id g :
  usergroups db !! group_id = Some g → admins_of db group_id = admins g.
Proof. intros Hg. unfold admins_of. by rewrite Hg. Qed.

Lemma with_usergroups_compose f h db :
  with_usergroups f (with_usergroups h db) = with_usergroups (f ∘ h) db.
Proof. reflexivity. Qed.

Lemma with_usergroups_id db : with_usergroups (λ t, t) db = db.
Proof. by destruct db. Qed.

Lemma permitted_true actor g :
  permitted actor g →
  bool_decide (actor = creator g) || bool_decide (actor ∈ admins g) = true.
Proof.
  intros [Hc | Ha].
  - by rewrite (bool_decide_eq_true_2 _ Hc).
  - rewrite (bool_decide_eq_true_2 _ Ha). apply orb_true_r.
Qed.

Lemma not_permitted_false actor g :
  ¬ permitted actor g →
  bool_decide (actor = creator g) || bool_decide (actor ∈ admins g) = false.
Proof.
  intros Hno. apply orb_false_iff. split; apply bool_decide_eq_false_2;
    intros H; apply Hno; [by left | by right].
Qed.

(** ** [add_admin] *)

Lemma promote_known_member u g :
  u ∈ members g → set_admins (λ s, {[u]} ∪ s) g = promoted u g.
Proof.
  intros Hin. unfold promoted, set_members, set_admins. simpl. f_equal.
  symmetry. apply subseteq_union_1_L. by apply singleton_subseteq_l.
Qed.

(** The two writes of [add_admin], followed by the rest [k] of the view. *)
Lemma add_admin_writes {B} (k : () → Eff B) u group_id g db :
  usergroups db !! group_id = Some g →
  (admins_add (mkInstance group_id g) u ≫= λ _,
   members_all (mkInstance group_id g) ≫= λ current,
   (if bool_decide (u ∉ current)
    then members_add (mkInstance group_id g) u else mret ()) ≫= k) db
  = k () (with_usergroups (alter (promoted u) group_id) db).
Proof.
  intros Hg. unfold admins_add, members_all. eff. cbn [pk].
  rewrite (members_of_alter _ _ _ _ Hg). cbn [set_admins members].
  destruct (decide (u ∈ members g)) as [Hin | Hout].
  - rewrite bool_decide_eq_false_2 by (intros Hn; by apply Hn).
    f_equal. unfold with_usergroups. simpl. f_equal.
    apply alter_ext. intros x Hx. rewrite Hg in Hx. injection Hx as <-.
    by apply promote_known_member.
  - rewrite (bool_decide_eq_true_2 _ Hout). unfold members_add. eff.
    f_equal. rewrite with_usergroups_compose.
    unfold with_usergroups. simpl. f_equal. by rewrite alter_alter_eq.
Qed.

Lemma Options_add_admin_run self request group_id user_id ec db actor g :
  user request = User actor →
  method request = "POST" →
  usergroups db !! group_id = Some g →
  user_id ∈ auth_user db →
  permitted actor g →
  Options.add_admin self request group_id user_id ec db =
  (with_usergroups (alter (promoted user_id) group_id) db,
   inr (HttpResponseRedirect
          (reverse "usergroups_group_detail" (Options.slug self) [group_id]))).
Proof.
  intros Huser Hpost Hg Hu Hperm.
  unfold Options.add_admin, login_required. rewrite Huser.
  rewrite bind_run, (get_object_or_404_found _ _ _ _ Hg).
  rewrite bind_run, (get_user_or_404_found _ _ Hu).
  rewrite bind_run, has_permission_run. cbn [pk fields].
  rewrite (admins_of_found _ _ _ Hg), (permitted_true _ _ Hperm).
  cbn [negb]. rewrite (not_POST_false _ Hpost).
  by rewrite (add_admin_writes _ _ _ _ _ Hg).
Qed.

Lemma is_admin_run group u db :
  is_admin group u db =
  (db, inr (match u with
            | User id => bool_decide (id ∈ admins_of db (pk group))
            | AnonymousUser => false
            end)).
Proof. reflexivity. Qed.

Lemma Views_add_admin_run request group_id user_id db actor g :
  user request = User actor →
  usergroups db !! group_id = Some g →
  user_id ∈ auth_user db →
  actor ∈ admins g →
  Views.add_admin request group_id user_id db =
  (with_usergroups (alter (promoted user_id) group_id) db,
   inr (HttpResponseRedirect (get_absolute_url group_id))).
Proof.
  intros Huser Hg Hu Hadm.
  unfold Views.add_admin, login_required, group_admin_required. rewrite Huser.
  rewrite bind_run, (get_object_or_404_found _ _ _ _ Hg).
  rewrite bind_run, is_admin_run. cbn [pk].
  rewrite (admins_of_found _ _ _ Hg), (bool_decide_eq_true_2 _ Hadm).
  rewrite bind_run, (get_user_or_404_found _ _ Hu).
  by rewrite (add_admin_writes _ _ _ _ _ Hg).
Qed.

Lemma promoted_idempotent u g : promoted u (promoted u g) = promoted u g.
Proof.
  unfold promoted, set_members, set_admins. simpl.
  by rewrite !(assoc_L (∪)), !union_idemp_L.
Qed.

Lemma permitted_promoted actor u g :
  permitted actor g → permitted actor (promoted u g).
Proof.
  intros [Hc | Ha]; [by left | right]. simpl. apply elem_of_union. by right.
Qed.

Lemma promoted_admin_and_member u group_id g db :
  usergroups db !! group_id = Some g →
  admin_and_member u group_id g
    (with_usergroups (alter (promoted u) group_id) db).
Proof.
  intros Hg. unfold admin_and_member.
  rewrite (admins_of_alter _ _ _ _ Hg), (members_of_alter _ _ _ _ Hg). simpl.
  repeat split; apply elem_of_union; left; by apply elem_of_singleton.
Qed.

(** C3: when a permitted actor (the creator or an admin) posts [add_admin]
    for a group [g] and a user [u], the user is afterwards in [admins(g)]
    and in [members(g)]: the admins become [{u} ∪ admins], the members
    [{u} ∪ members], so a user who was no member is made one; the view
    answers with a redirect to the group page.  The fixed-model view of
    [views.py] does the same for an actor who is an admin. *)
Theorem add_admin_makes_admin_and_member
    self request group_id user_id ec db actor g :
  user request = User actor →
  method request = "POST" →
  usergroups db !! group_id = Some g →
  user_id ∈ auth_user db →
  permitted actor g →
  admin_and_member user_id group_id g
    (Options.add_admin self request group_id user_id ec db).1
  ∧ (Options.add_admin self request group_id user_id ec db).2
    = inr (HttpResponseRedirect
             (reverse "usergroups_group_detail" (Options.slug self) [group_id]))
  ∧ (actor ∈ admins g →
     admin_and_member user_id group_id g
       (Views.add_admin request group_id user_id db).1
     ∧ (Views.add_admin request group_id user_id db).2
       = inr (HttpResponseRedirect (get_absolute_url group_id))).
Proof.
  intros Huser Hpost Hg Hu Hperm.
  rewrite (Options_add_admin_run _ _ _ _ _ _ _ _ Huser Hpost Hg Hu Hperm).
  split; [by apply promoted_admin_and_member | split; [done |]].
  intros Hadm. rewrite (Views_add_admin_run _ _ _ _ _ _ Huser Hg Hu Hadm).
  split; [by apply promoted_admin_and_member | done].
Qed.

Lemma add_admin_makes_admin_and_member_witness :
  admin_and_member bob 10 solo_group
    (Options.add_admin the_config (post_by alice) 10 bob None solo_db).1
  ∧ (Options.add_admin the_config (post_by alice) 10 bob None solo_db).2
    = inr (HttpResponseRedirect (reverse "usergroups_group_detail" "team" [10]))
  ∧ (alice ∈ admins solo_group →
     admin_and_member bob 10 solo_group
       (Views.add_admin (post_by alice) 10 bob solo_db).1
     ∧ (Views.add_admin (post_by alice) 10 bob solo_db).2
       = inr (HttpResponseRedirect (get_absolute_url 10))).
Proof.
  apply (add_admin_makes_admin_and_member
           the_config (post_by alice) 10 bob None solo_db alice solo_group).
  - reflexivity.
  - reflexivity.
  - reflexivity.
  - by vm_compute.
  - left. reflexivity.
Defined.

(** C8: posting [add_admin] a second time with the same arguments leaves the
    store exactly as the first call left it, in both implementations. *)
Theorem add_admin_twice_as_once self request group_id user_id ec db actor g :
  user request = User actor →
  method request = "POST" →
  usergroups db !! group_id = Some g →
  user_id ∈ auth_user db →
  permitted actor g →
  (Options.add_admin self request group_id user_id ec
     (Options.add_admin self request group_id user_id ec db).1).1
  = (Options.add_admin self request group_id user_id ec db).1
  ∧ (actor ∈ admins g →
     (Views.add_admin request group_id user_id
        (Views.add_admin request group_id user_id db).1).1
     = (Views.add_admin request group_id user_id db).1).
Proof.
  intros Huser Hpost Hg Hu Hperm.
  assert (Hg' : usergroups (with_usergroups (alter (promoted user_id) group_id) db)
                  !! group_id = Some (promoted user_id g)).
  { unfold with_usergroups. simpl. by rewrite lookup_alter_eq, Hg. }
  assert (Hsame : with_usergroups (alter (promoted user_id) group_id)
                    (with_usergroups (alter (promoted user_id) group_id) db)
                  = with_usergroups (alter (promoted user_id) group_id) db).
  { rewrite with_usergroups_compose. unfold with_usergroups. simpl. f_equal.
    rewrite alter_alter_eq. apply alter_ext. intros x _. simpl.
    apply promoted_idempotent. }
  split.
  - rewrite (Options_add_admin_run _ _ _ _ _ _ _ _ Huser Hpost Hg Hu Hperm).
    cbn [fst].
    rewrite (Options_add_admin_run _ _ _ _ _ _ _ _ Huser Hpost Hg' Hu
               (permitted_promoted _ _ _ Hperm)).
    exact Hsame.
  - intros Hadm. rewrite (Views_add_admin_run _ _ _ _ _ _ Huser Hg Hu Hadm).
    cbn [fst]. rewrite (Views_add_admin_run _ _ _ _ _ _ Huser Hg' Hu).
    + exact Hsame.
    + simpl. apply elem_of_union. by right.
Qed.

Lemma add_admin_twice_as_once_witness :
  (Options.add_admin the_config (post_by alice) 10 bob None
     (Options.add_admin the_config (post_by alice) 10 bob None solo_db).1).1
  = (Options.add_admin the_config (post_by alice) 10 bob None solo_db).1
  ∧ (alice ∈ admins solo_group →
     (Views.add_admin (post_by alice) 10 bob
        (Views.add_admin (post_by alice) 10 bob solo_db).1).1
     = (Views.add_admin (post_by alice) 10 bob solo_db).1).
Proof.
  apply (add_admin_twice_as_once
           the_config (post_by alice) 10 bob None solo_db alice solo_group).
  - reflexivity.
  - reflexivity.
  - reflexivity.
  - by vm_compute.
  - left. reflexivity.
Defined.

(** ** [revoke_admin] *)

Lemma Options_revoke_admin_run self request group_id user_id ec db actor g :
  user request = User actor →
  method request = "POST" →
  usergroups db !! group_id = Some g →
  user_id ∈ auth_user db →
  permitted actor g →
  Options.revoke_admin self request group_id user_id ec db =
  (with_usergroups (alter (demoted user_id) group_id) db,
   if is_ajax request then inl (NameError "json_response")
   else inr (HttpResponseRedirect
               (reverse "usergroups_group_detail" (Options.slug self) [group_id]))).
Proof.
  intros Huser Hpost Hg Hu Hperm.
  unfold Options.revoke_admin, login_required. rewrite Huser.
  rewrite bind_run, (get_object_or_404_found _ _ _ _ Hg).
  rewrite bind_run, (get_user_or_404_found _ _ Hu).
  rewrite bind_run, has_permission_run. cbn [pk fields].
  rewrite (admins_of_found _ _ _ Hg), (permitted_true _ _ Hperm).
  cbn [negb]. rewrite (not_POST_false _ Hpost).
  unfold remove_admin. eff. by destruct (is_ajax request).
Qed.

Lemma Views_revoke_admin_run request group_id user_id db actor g :
  user request = User actor →
  usergroups db !! group_id = Some g →
  user_id ∈ auth_user db →
  actor ∈ admins g →
  Views.revoke_admin request group_id user_id db =
  (with_usergroups (alter (demoted user_id) group_id) db,
   inr (HttpResponseRedirect (get_absolute_url group_id))).
Proof.
  intros Huser Hg Hu Hadm.
  unfold Views.revoke_admin, login_required, group_admin_required.
  rewrite Huser.
  rewrite bind_run, (get_object_or_404_found _ _ _ _ Hg).
  rewrite bind_run, is_admin_run. cbn [pk].
  rewrite (admins_of_found _ _ _ Hg), (bool_decide_eq_true_2 _ Hadm).
  rewrite bind_run, (get_user_or_404_found _ _ Hu).
  reflexivity.
Qed.

Lemma demoted_admin_revoked u group_id g db :
  usergroups db !! group_id = Some g →
  admin_revoked u group_id g
    (with_usergroups (alter (demoted u) group_id) db).
Proof.
  intros Hg. unfold admin_revoked.
  rewrite (admins_of_alter _ _ _ _ Hg), (members_of_alter _ _ _ _ Hg). simpl.
  repeat split; [| done].
  intros Hin. apply elem_of_difference in Hin as [_ Hne].
  apply Hne. by apply elem_of_singleton.
Qed.

(** C7: when a permitted actor posts [revoke_admin] for a group [g] and a
    user [u], the user is afterwards not in [admins(g)] and [members(g)] is
    what it was, so a member stays a member; this holds of the store whether
    or not the request was an AJAX one, and of the view of [views.py] for an
    actor who is an admin.  ([remove_admin] is the method of the missing
    [models.py], taken from the specification.) *)
Theorem revoke_admin_keeps_membership
    self request group_id user_id ec db actor g :
  user request = User actor →
  method request = "POST" →
  usergroups db !! group_id = Some g →
  user_id ∈ auth_user db →
  permitted actor g →
  admin_revoked user_id group_id g
    (Options.revoke_admin self request group_id user_id ec db).1
  ∧ (actor ∈ admins g →
     admin_revoked user_id group_id g
       (Views.revoke_admin request group_id user_id db).1).
Proof.
  intros Huser Hpost Hg Hu Hperm.
  rewrite (Options_revoke_admin_run _ _ _ _ _ _ _ _ Huser Hpost Hg Hu Hperm).
  split; [by apply demoted_admin_revoked |].
  intros Hadm. rewrite (Views_revoke_admin_run _ _ _ _ _ _ Huser Hg Hu Hadm).
  by apply demoted_admin_revoked.
Qed.

Lemma revoke_admin_keeps_membership_witness :
  admin_revoked alice 10 solo_group
    (Options.revoke_admin the_config (post_by alice) 10 alice None solo_db).1
  ∧ (alice ∈ admins solo_group →
     admin_revoked alice 10 solo_group
       (Views.revoke_admin (post_by alice) 10 alice solo_db).1).
Proof.
  apply (revoke_admin_keeps_membership
           the_config (post_by alice) 10 alice None solo_db alice solo_group).
  - reflexivity.
  - reflexivity.
  - reflexivity.
  - by vm_compute.
  - left. reflexivity.
Defined.

(** ** [remove_member] on oneself *)

(** C10: when a permitted actor calls the configurable [remove_member] with
    themself as the target, the store is left as it was (nobody leaves
    [members] or [admins]) and the answer is a redirect to the leave-group
    view, whatever the request method. *)
Theorem remove_member_self_redirects_to_leave
    self request group_id ec db actor g :
  user request = User actor →
  actor ∈ auth_user db →
  usergroups db !! group_id = Some g →
  permitted actor g →
  Options.remove_member self request group_id actor ec db =
  (db, inr (HttpResponseRedirect
              (reverse "usergroups_leave_group" (Options.slug self) [group_id]))).
Proof.
  intros Huser Hu Hg Hperm.
  unfold Options.remove_member, login_required. rewrite Huser.
  rewrite bind_run, (get_user_or_404_found _ _ Hu).
  rewrite bind_run, (get_object_or_404_found _ _ _ _ Hg).
  rewrite bind_run, has_permission_run. cbn [pk fields].
  rewrite (admins_of_found _ _ _ Hg), (permitted_true _ _ Hperm).
  cbn [negb]. by rewrite bool_decide_eq_true_2.
Qed.

Lemma remove_member_self_redirects_to_leave_witness :
  Options.remove_member the_config (post_by alice) 10 alice None solo_db =
  (solo_db, inr (HttpResponseRedirect
                   (reverse "usergroups_leave_group" "team" [10]))).
Proof.
  apply (remove_member_self_redirects_to_leave
           the_config (post_by alice) 10 None solo_db alice solo_group).
  - reflexivity.
  - by vm_compute.
  - reflexivity.
  - left. reflexivity.
Defined.

(** ** The permission gate *)

Ltac refuse Hg Hno :=
  rewrite bind_run, has_permission_run; cbn [pk fields];
  rewrite (admins_of_found _ _ _ Hg), (not_permitted_false _ _ Hno);
  reflexivity.

Section Gate.
Variables (self : Options.BaseUserGroupConfiguration) (request : HttpRequest).
Variables (group_id : nat) (ec : option (gmap string Value)).
Variables (db : Database) (actor : nat) (g : UserGroup).
Hypothesis Huser : user request = User actor.
Hypothesis Hg : usergroups db !! group_id = Some g.
Hypothesis Hno : ¬ permitted actor g.

Lemma edit_group_refused :
  Options.edit_group self request group_id ec db
  = (db, inr HttpResponseBadRequest).
Proof.
  unfold Options.edit_group, login_required. rewrite Huser.
  rewrite bind_run, (get_object_or_404_found _ _ _ _ Hg). refuse Hg Hno.
Qed.

Lemma delete_group_refused :
  Options.delete_group self request group_id ec db
  = (db, inr HttpResponseBadRequest).
Proof.
  unfold Options.delete_group, login_required. rewrite Huser.
  rewrite bind_run, (get_object_or_404_found _ _ _ _ Hg). refuse Hg Hno.
Qed.

Lemma create_email_invitation_refused :
  Options.create_email_invitation self request group_id ec db
  = (db, inr HttpResponseBadRequest).
Proof.
  unfold Options.create_email_invitation, login_required. rewrite Huser.
  rewrite bind_run, (get_object_or_404_found _ _ _ _ Hg). refuse Hg Hno.
Qed.

Lemma remove_member_refused user_id :
  user_id ∈ auth_user db →
  Options.remove_member self request group_id user_id ec db
  = (db, inr HttpResponseBadRequest).
Proof.
  intros Hu. unfold Options.remove_member, login_required. rewrite Huser.
  rewrite bind_run, (get_user_or_404_found _ _ Hu).
  rewrite bind_run, (get_object_or_404_found _ _ _ _ Hg). refuse Hg Hno.
Qed.

Lemma add_admin_refused user_id :
  user_id ∈ auth_user db →
  Options.add_admin self request group_id user_id ec db
  = (db, inr HttpResponseBadRequest).
Proof.
  intros Hu. unfold Options.add_admin, login_required. rewrite Huser.
  rewrite bind_run, (get_object_or_404_found _ _ _ _ Hg).
  rewrite bind_run, (get_user_or_404_found _ _ Hu). refuse Hg Hno.
Qed.

Lemma revoke_admin_refused user_id :
  user_id ∈ auth_user db →
  Options.revoke_admin self request group_id user_id ec db
  = (db, inr HttpResponseBadRequest).
Proof.
  intros Hu. unfold Options.revoke_admin, login_required. rewrite Huser.
  rewrite bind_run, (get_object_or_404_found _ _ _ _ Hg).
  rewrite bind_run, (get_user_or_404_found _ _ Hu). refuse Hg Hno.
Qed.

Lemma approve_application_refused application_id :
  is_Some (applications db !! application_id) →
  Options.approve_application self request group_id application_id ec db
  = (db, inr HttpResponseBadRequest).
Proof.
  intros [a Ha]. unfold Options.approve_application, login_required.
  rewrite Huser.
  rewrite bind_run, (get_object_or_404_found _ _ _ _ Hg).
  rewrite bind_run, (get_object_or_404_found _ _ _ _ Ha). refuse Hg Hno.
Qed.

Lemma ignore_application_refused application_id :
  is_Some (applications db !! application_id) →
  Options.ignore_application self request group_id application_id ec db
  = (db, inr HttpResponseBadRequest).
Proof.
  intros [a Ha]. unfold Options.ignore_application, login_required.
  rewrite Huser.
  rewrite bind_run, (get_object_or_404_found _ _ _ _ Hg).
  rewrite bind_run, (get_object_or_404_found _ _ _ _ Ha). refuse Hg Hno.
Qed.
End Gate.

(** C4: every admin-only operation (edit, delete, remove member, add admin,
    revoke admin, invite by e-mail, approve or ignore an application) called
    by a logged-in actor who is neither the creator nor an admin of the
    group answers [HttpResponseBadRequest] (status 400, no redirect) and
    leaves the whole store as it was, for every request method, AJAX or
    not, and every form content. *)
Theorem permission_gate self request group_id ec op db actor g :
  user request = User actor →
  usergroups db !! group_id = Some g →
  ¬ permitted actor g →
  target_exists db op →
  perform self request group_id ec op db = (db, inr HttpResponseBadRequest)
  ∧ serve (perform self request group_id ec op db).2 = Respond 400.
Proof.
  intros Huser Hg Hno Htarget.
  assert (Hrun : perform self request group_id ec op db
                 = (db, inr HttpResponseBadRequest)).
  { destruct op; simpl in Htarget; unfold perform.
    - by eapply edit_group_refused.
    - by eapply delete_group_refused.
    - by eapply remove_member_refused.
    - by eapply add_admin_refused.
    - by eapply revoke_admin_refused.
    - by eapply create_email_invitation_refused.
    - by eapply approve_application_refused.
    - by eapply ignore_application_refused. }
  rewrite Hrun. split; reflexivity.
Qed.

(** [bob] is neither creator nor admin of group 10. *)
Lemma permission_gate_witness :
  perform the_config (post_by bob) 10 None (RemoveMember alice) solo_db
  = (solo_db, inr HttpResponseBadRequest)
  ∧ serve (perform the_config (post_by bob) 10 None (RemoveMember alice)
             solo_db).2 = Respond 400.
Proof.
  apply (permission_gate the_config (post_by bob) 10 None (RemoveMember alice)
           solo_db bob solo_group).
  - reflexivity.
  - reflexivity.
  - intros [Hc | Ha]; [discriminate Hc | by vm_compute in Ha].
  - by vm_compute.
Defined.

(** ** [leave_group] *)

(** In the configurable view a sole admin who posts [leave_group] is sent to
    the delete-group view and the store is left as it was. *)
Lemma Options_leave_group_sole_admin self request group_id ec db u g :
  user request = User u →
  method request = "POST" →
  usergroups db !! group_id = Some g →
  admins g = {[u]} →
  Options.leave_group self request group_id ec db =
  (db, inr (HttpResponseRedirect
              (reverse "usergroups_delete_group" (Options.slug self) [group_id]))).
Proof.
  intros Huser Hpost Hg Hsole.
  unfold Options.leave_group, login_required. rewrite Huser.
  rewrite bind_run, (get_object_or_404_found _ _ _ _ Hg).
  rewrite (not_POST_false _ Hpost).
  unfold admins_count, admins_all. eff. cbn [pk].
  rewrite (admins_of_found _ _ _ Hg), Hsole, size_singleton.
  rewrite (bool_decide_eq_true_2 (1 = 1)) by done.
  rewrite (bool_decide_eq_true_2 (u ∈ ({[u]} : gset nat)))
    by (by apply elem_of_singleton).
  reflexivity.
Qed.

Lemma Options_leave_group_sole_admin_example :
  Options.leave_group the_config (post_by alice) 10 None solo_db =
  (solo_db, inr (HttpResponseRedirect
                   (reverse "usergroups_delete_group" "team" [10]))).
Proof.
  by apply (Options_leave_group_sole_admin
              the_config (post_by alice) 10 None solo_db alice solo_group).
Defined.

(** The view of [views.py] runs the two removals for every logged-in
    caller, whatever the admin set is. *)
Lemma Views_leave_group_run request group_id db u g :
  user request = User u →
  usergroups db !! group_id = Some g →
  Views.leave_group request (mkInstance group_id g) group_id db =
  (with_usergroups
     (alter (set_members (λ s, s ∖ {[u]}) ∘ demoted u) group_id) db,
   inr (HttpResponseRedirect (get_absolute_url group_id))).
Proof.
  intros Huser Hg. unfold Views.leave_group, login_required. rewrite Huser.
  unfold remove_admin, members_remove. eff. cbn [pk].
  rewrite with_usergroups_compose. unfold with_usergroups. simpl.
  by rewrite alter_alter_eq.
Qed.

(** C1 (the code departs from it): in [views.py], [alice], the sole admin
    and member of group 10, posts [leave_group]: she is taken out of the
    admins and of the members, the group is left without an admin, and the
    answer redirects to the group page, not to the deletion of the group.
    The configurable view of [options.py] keeps the store and redirects to
    the delete-group view on the same input. *)
Theorem views_leave_group_strands_group :
  admins_of solo_db 10 = {[alice]}
  ∧ admins_of (Views.leave_group (post_by alice) (mkInstance 10 solo_group) 10
                 solo_db).1 10 = ∅
  ∧ members_of (Views.leave_group (post_by alice) (mkInstance 10 solo_group) 10
                  solo_db).1 10 = ∅
  ∧ (Views.leave_group (post_by alice) (mkInstance 10 solo_group) 10 solo_db).2
    = inr (HttpResponseRedirect (get_absolute_url 10))
  ∧ Options.leave_group the_config (post_by alice) 10 None solo_db
    = (solo_db, inr (HttpResponseRedirect
                       (reverse "usergroups_delete_group" "team" [10]))).
Proof.
  split; [reflexivity |].
  rewrite (Views_leave_group_run (post_by alice) 10 solo_db alice solo_group)
    by reflexivity.
  cbn [fst snd].
  rewrite (admins_of_alter _ 10 solo_group) by reflexivity.
  rewrite (members_of_alter _ 10 solo_group) by reflexivity.
  simpl. rewrite difference_diag_L.
  do 3 (split; [reflexivity |]).
  by apply (Options_leave_group_sole_admin
              the_config (post_by alice) 10 None solo_db alice solo_group).
Qed.

(** ** [delete_group] *)

(** The configurable view asks for confirmation on anything but a POST and
    keeps the store; only a POST deletes the group. *)
Lemma Options_delete_group_confirms self request group_id ec db actor g :
  user request = User actor →
  method request ≠ "POST" →
  usergroups db !! group_id = Some g →
  permitted actor g →
  Options.delete_group self request group_id ec db =
  (db, inr (direct_to_template Options.confirm_action_template_name
              (<["action" := VStr "delete"]> {["group" := VGroup group_id]}))).
Proof.
  intros Huser Hget Hg Hperm.
  unfold Options.delete_group, login_required. rewrite Huser.
  rewrite bind_run, (get_object_or_404_found _ _ _ _ Hg).
  rewrite bind_run, has_permission_run. cbn [pk fields].
  rewrite (admins_of_found _ _ _ Hg), (permitted_true _ _ Hperm).
  cbn [negb]. rewrite (not_POST_true _ Hget).
  unfold Options.confirmation. cbn [default pk].
  by rewrite insert_empty.
Qed.

Lemma Options_delete_group_deletes self request group_id ec db actor g :
  user request = User actor →
  method request = "POST" →
  usergroups db !! group_id = Some g →
  permitted actor g →
  Options.delete_group self request group_id ec db =
  (with_usergroups (delete group_id) db,
   inr (HttpResponseRedirect
          (reverse "usergroups_delete_group_done" (Options.slug self) []))).
Proof.
  intros Huser Hpost Hg Hperm.
  unfold Options.delete_group, login_required. rewrite Huser.
  rewrite bind_run, (get_object_or_404_found _ _ _ _ Hg).
  rewrite bind_run, has_permission_run. cbn [pk fields].
  rewrite (admins_of_found _ _ _ Hg), (permitted_true _ _ Hperm).
  cbn [negb]. by rewrite (not_POST_false _ Hpost).
Qed.

Lemma Options_delete_group_example :
  usergroups (Options.delete_group the_config (get_by alice) 10 None solo_db).1
    !! 10 = Some solo_group
  ∧ usergroups (Options.delete_group the_config (post_by alice) 10 None
                  solo_db).1 !! 10 = None.
Proof.
  rewrite (Options_delete_group_confirms
             the_config (get_by alice) 10 None solo_db alice solo_group);
    [| reflexivity | discriminate | reflexivity | by left].
  rewrite (Options_delete_group_deletes
             the_config (post_by alice) 10 None solo_db alice solo_group);
    [| reflexivity | reflexivity | reflexivity | by left].
  split; [reflexivity | apply lookup_delete_eq].
Defined.

(** The view of [views.py] never looks at the request method. *)
Lemma Views_delete_group_run request group_id db actor g :
  user request = User actor →
  usergroups db !! group_id = Some g →
  actor ∈ admins g →
  Views.delete_group request group_id db =
  (with_usergroups (delete group_id) db,
   inr (direct_to_template "usergroups/group_deleted.html"
          {["group_name" := VStr (name g)]})).
Proof.
  intros Huser Hg Hadm. unfold Views.delete_group, group_admin_required.
  rewrite bind_run, (get_object_or_404_found _ _ _ _ Hg).
  rewrite bind_run, is_admin_run, Huser. cbn [pk].
  by rewrite (admins_of_found _ _ _ Hg), (bool_decide_eq_true_2 _ Hadm).
Qed.

(** C5 (the code departs from it): in [views.py] a plain GET of
    [delete_group] by the admin [alice] deletes group 10 at once and renders
    the group-deleted page; there is no confirmation step.  The configurable
    view of [options.py] keeps the group on the same GET. *)
Theorem views_delete_group_on_get :
  method (get_by alice) = "GET"
  ∧ usergroups solo_db !! 10 = Some solo_group
  ∧ usergroups (Views.delete_group (get_by alice) 10 solo_db).1 !! 10 = None
  ∧ (Views.delete_group (get_by alice) 10 solo_db).2
    = inr (direct_to_template "usergroups/group_deleted.html"
             {["group_name" := VStr "G"]})
  ∧ usergroups (Options.delete_group the_config (get_by alice) 10 None
                  solo_db).1 !! 10 = Some solo_group.
Proof.
  do 2 (split; [reflexivity |]).
  rewrite (Views_delete_group_run (get_by alice) 10 solo_db alice solo_group);
    [| reflexivity | reflexivity | by vm_compute].
  cbn [fst snd]. split; [apply lookup_delete_eq |]. split; [reflexivity |].
  by rewrite (Options_delete_group_confirms
                the_config (get_by alice) 10 None solo_db alice solo_group);
    [| | discriminate | | by left].
Qed.

(** ** [objects.get] *)

Section ObjectsGet.
Context {R : Type} (model : Model) (table : Database → gmap nat R).
Context (P : nat * R → Prop) `{!∀ x, Decision (P x)}.

Lemma objects_get_none db :
  filter P (table db) = ∅ →
  objects_get model table P db = (db, inl (DoesNotExist model)).
Proof.
  intros Hnone. unfold objects_get. eff. by rewrite Hnone, map_to_list_empty.
Qed.

Lemma objects_get_one db id r :
  filter P (table db) = {[id := r]} →
  objects_get model table P db = (db, inr (mkInstance id r)).
Proof.
  intros Hone. unfold objects_get. eff.
  by rewrite Hone, map_to_list_singleton.
Qed.

Lemma objects_get_many db :
  1 < size (filter P (table db)) →
  objects_get model table P db = (db, inl (MultipleObjectsReturned model)).
Proof.
  intros Hmany. unfold objects_get. eff.
  rewrite <- length_map_to_list in Hmany.
  destruct (map_to_list (filter P (table db))) as [| [i x] [| [j y] rest]];
    simpl in Hmany; [lia | lia | reflexivity].
Qed.
End ObjectsGet.

Lemma map_size_1_singleton {R} (m : gmap nat R) :
  size m = 1 → ∃ id r, m = {[id := r]}.
Proof.
  intros Hsize. rewrite <- length_map_to_list in Hsize.
  destruct (map_to_list m) as [| [id r] [| ? ?]] eqn:Hlist;
    simpl in Hsize; try lia.
  exists id, r. rewrite <- (list_to_map_to_list m), Hlist. simpl.
  by rewrite insert_empty.
Qed.

(** ** [apply_to_join_group] *)

(** An applicant who is a member already: both views leave the store alone
    and report [already_member = True] to the template. *)
Lemma apply_to_join_group_already_member self request group_id ec db u g :
  user request = User u →
  method request = "POST" →
  is_ajax request = false →
  usergroups db !! group_id = Some g →
  u ∈ members g →
  Options.apply_to_join_group self request group_id ec db
  = (db, inr (direct_to_template "usergroups/application.html"
                (application_context group_id true)))
  ∧ Views.apply_to_join_group request group_id db
    = (db, inr (direct_to_template "usergroups/application.html"
                  (application_context group_id true)))
  ∧ application_context group_id true !! "already_member" = Some (VBool true).
Proof.
  intros Huser Hpost Hajax Hg Hin. split; [| split].
  - unfold Options.apply_to_join_group, login_required. rewrite Huser.
    rewrite bind_run, (get_object_or_404_found _ _ _ _ Hg).
    rewrite (not_POST_false _ Hpost). unfold members_all. eff. cbn [pk].
    rewrite (members_of_found _ _ _ Hg), (bool_decide_eq_true_2 _ Hin).
    cbn [negb]. by rewrite Hajax.
  - unfold Views.apply_to_join_group, login_required. rewrite Huser.
    rewrite bind_run, (get_object_or_404_found _ _ _ _ Hg).
    unfold members_all. eff. cbn [pk].
    by rewrite (members_of_found _ _ _ Hg), (bool_decide_eq_true_2 _ Hin).
  - reflexivity.
Qed.

Lemma apply_to_join_group_already_member_example :
  Options.apply_to_join_group the_config (post_by bob) 10 None team_db
  = (team_db, inr (direct_to_template "usergroups/application.html"
                     (application_context 10 true))).
Proof.
  apply (apply_to_join_group_already_member
           the_config (post_by bob) 10 None team_db bob team_group);
    reflexivity.
Defined.

(** [views.py], no pending application of the user to the group: one row
    is created under a fresh key. *)
Lemma Views_apply_first request group_id db u g :
  user request = User u →
  usergroups db !! group_id = Some g →
  u ∉ members g →
  filter (application_of u group_id) (applications db) = ∅ →
  Views.apply_to_join_group request group_id db
  = (with_applications (insert (fresh (dom (applications db)))
                          (new_application u group_id (now request))) db,
     inr (direct_to_template "usergroups/application.html"
            (application_context group_id false))).
Proof.
  intros Huser Hg Hout Hnone.
  unfold Views.apply_to_join_group, login_required. rewrite Huser.
  rewrite bind_run, (get_object_or_404_found _ _ _ _ Hg).
  unfold members_all. rewrite bind_run. unfold query at 1. cbn [pk].
  rewrite (members_of_found _ _ _ Hg), (bool_decide_eq_false_2 _ Hout).
  cbn [negb]. rewrite bind_run. unfold try_except.
  rewrite bind_run, (objects_get_none _ _ _ _ Hnone).
  reflexivity.
Qed.

(** [views.py], one pending application: its timestamp is set to the
    current time, under the same key. *)
Lemma Views_apply_again request group_id db u g id row :
  user request = User u →
  usergroups db !! group_id = Some g →
  u ∉ members g →
  filter (application_of u group_id) (applications db) = {[id := row]} →
  Views.apply_to_join_group request group_id db
  = (with_applications (insert id (new_application u group_id (now request))) db,
     inr (direct_to_template "usergroups/application.html"
            (application_context group_id false))).
Proof.
  intros Huser Hg Hout Hone.
  assert (Hrow : application_of u group_id (id, row)).
  { apply (map_lookup_filter_Some_1_2 _ (applications db) id row).
    rewrite Hone. apply lookup_singleton_eq. }
  destruct Hrow as [Hu Hgr]. simpl in Hu, Hgr.
  unfold Views.apply_to_join_group, login_required. rewrite Huser.
  rewrite bind_run, (get_object_or_404_found _ _ _ _ Hg).
  unfold members_all. rewrite bind_run. unfold query at 1. cbn [pk].
  rewrite (members_of_found _ _ _ Hg), (bool_decide_eq_false_2 _ Hout).
  cbn [negb]. rewrite bind_run. unfold try_except.
  rewrite bind_run, (objects_get_one _ _ _ _ _ _ Hone).
  unfold application_touch, new_application. eff. cbn [pk fields].
  by rewrite Hu, Hgr.
Qed.

(** [views.py]: applying twice in a row leaves exactly one pending
    application of the user to the group, stamped with the time of the
    second request. *)
Lemma Views_apply_twice request again group_id db u g :
  user request = User u →
  user again = User u →
  usergroups db !! group_id = Some g →
  u ∉ members g →
  filter (application_of u group_id) (applications db) = ∅ →
  filter (application_of u group_id)
    (applications
       (Views.apply_to_join_group again group_id
          (Views.apply_to_join_group request group_id db).1).1)
  = {[fresh (dom (applications db)) := new_application u group_id (now again)]}.
Proof.
  intros Huser Hagain Hg Hout Hnone.
  rewrite (Views_apply_first _ _ _ _ _ Huser Hg Hout Hnone). cbn [fst].
  set (id := fresh (dom (applications db))).
  set (db1 := with_applications
                (insert id (new_application u group_id (now request))) db).
  assert (Hone : filter (application_of u group_id) (applications db1)
                 = {[id := new_application u group_id (now request)]}).
  { unfold db1, with_applications. cbn [applications].
    rewrite map_filter_insert. rewrite decide_True by done.
    by rewrite Hnone, insert_empty. }
  assert (Hg1 : usergroups db1 !! group_id = Some g) by exact Hg.
  rewrite (Views_apply_again again group_id db1 u g id _ Hagain Hg1 Hout Hone).
  unfold db1.
  cbn [fst]. unfold with_applications. cbn [applications].
  rewrite insert_insert_eq, map_filter_insert. rewrite decide_True by done.
  by rewrite Hnone, insert_empty.
Qed.

Lemma Views_apply_twice_example :
  filter (application_of carol 10)
    (applications
       (Views.apply_to_join_group (post_at carol 99) 10
          (Views.apply_to_join_group (post_at carol 50) 10 team_db).1).1)
  = {[fresh (dom (applications team_db)) := new_application carol 10 99]}.
Proof.
  apply (Views_apply_twice (post_at carol 50) (post_at carol 99) 10 team_db
           carol team_group).
  - reflexivity.
  - reflexivity.
  - reflexivity.
  - by vm_compute.
  - reflexivity.
Defined.

(** [options.py], no pending application: one row is created, and the
    admins are notified when notifications are installed. *)
Lemma Options_apply_first self request group_id ec db u g :
  user request = User u →
  method request = "POST" →
  usergroups db !! group_id = Some g →
  u ∉ members g →
  filter (application_of u group_id) (applications db) = ∅ →
  Options.apply_to_join_group self request group_id ec db
  = ((if Options.notification self
      then with_outbox (λ sent, sent ++ [(admins g, "usergroups_application")])
      else λ d, d)
       (with_applications (insert (fresh (dom (applications db)))
                             (new_application u group_id (now request))) db),
     if is_ajax request then inl (NameError "json_response")
     else inr (direct_to_template "usergroups/application.html"
                 (application_context group_id false))).
Proof.
  intros Huser Hpost Hg Hout Hnone.
  unfold Options.apply_to_join_group, login_required. rewrite Huser.
  rewrite bind_run, (get_object_or_404_found _ _ _ _ Hg).
  rewrite (not_POST_false _ Hpost).
  unfold members_all. rewrite bind_run. unfold query at 1. cbn [pk].
  rewrite (members_of_found _ _ _ Hg), (bool_decide_eq_false_2 _ Hout).
  cbn [negb]. rewrite bind_run. unfold try_except.
  rewrite bind_run, (objects_get_none _ _ _ _ Hnone).
  unfold applications_create, notification_send, admins_all. eff. cbn [pk].
  destruct (Options.notification self); eff.
  - unfold admins_of, with_applications. cbn [usergroups]. rewrite Hg.
    cbn [from_option]. by destruct (is_ajax request).
  - by destruct (is_ajax request).
Qed.

(** [options.py], one pending application: the view stops with
    [NameError] where it reads the clock; nothing is written. *)
Lemma Options_apply_again self request group_id ec db u g id row :
  user request = User u →
  method request = "POST" →
  usergroups db !! group_id = Some g →
  u ∉ members g →
  filter (application_of u group_id) (applications db) = {[id := row]} →
  Options.apply_to_join_group self request group_id ec db
  = (db, inl (NameError "datetime")).
Proof.
  intros Huser Hpost Hg Hout Hone.
  unfold Options.apply_to_join_group, login_required. rewrite Huser.
  rewrite bind_run, (get_object_or_404_found _ _ _ _ Hg).
  rewrite (not_POST_false _ Hpost).
  unfold members_all. rewrite bind_run. unfold query at 1. cbn [pk].
  rewrite (members_of_found _ _ _ Hg), (bool_decide_eq_false_2 _ Hout).
  cbn [negb]. rewrite bind_run. unfold try_except.
  rewrite bind_run, (objects_get_one _ _ _ _ _ _ Hone).
  reflexivity.
Qed.

(** C6 (the code departs from it): [carol], no member of group 10, posts
    [apply_to_join_group] of [options.py] at time 50 and again at time 99.
    The first call creates the one application, stamped 50.  The second
    call raises [NameError] ([datetime] is not imported in [options.py]):
    no response is produced and the application keeps the stamp 50.  The
    view of [views.py], which imports [datetime], stamps the same
    application 99 on the second call. *)
Theorem options_reapply_raises :
  map_to_list (applications
    (Options.apply_to_join_group the_config (post_at carol 50) 10 None
       team_db).1)
  = [(0, new_application carol 10 50)]
  ∧ Options.apply_to_join_group the_config (post_at carol 99) 10 None
      (Options.apply_to_join_group the_config (post_at carol 50) 10 None
         team_db).1
    = ((Options.apply_to_join_group the_config (post_at carol 50) 10 None
          team_db).1,
       inl (NameError "datetime"))
  ∧ map_to_list (applications
      (Views.apply_to_join_group (post_at carol 99) 10
         (Views.apply_to_join_group (post_at carol 50) 10 team_db).1).1)
    = [(0, new_application carol 10 99)].
Proof.
  assert (Hout : carol ∉ members team_group) by (by vm_compute).
  rewrite (Options_apply_first the_config (post_at carol 50) 10 None team_db
             carol team_group) by (reflexivity || exact Hout).
  cbn [Options.notification the_config fst].
  split; [reflexivity |]. split.
  - apply (Options_apply_again the_config (post_at carol 99) 10 None _
             carol team_group 0 (new_application carol 10 50));
      (reflexivity || exact Hout).
  - vm_compute. reflexivity.
Qed.

(** ** Requests that end in an uncaught exception *)

(** C9 (the code departs from it): three requests of normal use end in an
    uncaught exception, which the framework can only answer with a server
    error.  An admin's AJAX POST of [remove_member] removes the member and
    then raises [NameError] (the view names [user], which is not bound); an
    admin's GET of [edit_group] raises [AttributeError] ([extra_context] is
    [None] when the form is re-rendered); a second [apply_to_join_group]
    raises [NameError] ([datetime] is not imported). *)
Theorem views_raise_uncaught :
  serve (Options.remove_member the_config (ajax_post_by alice) 10 bob None
           team_db).2
  = ServerError (NameError "user")
  ∧ members_of (Options.remove_member the_config (ajax_post_by alice) 10 bob
                  None team_db).1 10 = {[alice]}
  ∧ serve (Options.edit_group the_config (get_by alice) 10 None team_db).2
    = ServerError (AttributeError "'NoneType' object has no attribute 'update'")
  ∧ serve (Options.apply_to_join_group the_config (post_at carol 99) 10 None
             (Options.apply_to_join_group the_config (post_at carol 50) 10
                None team_db).1).2
    = ServerError (NameError "datetime").
Proof.
  split; [vm_compute; reflexivity |].
  split; [vm_compute; reflexivity |].
  split; [vm_compute; reflexivity |].
  vm_compute; reflexivity.
Qed.

(** ** [validate_email_invitation] *)

Lemma delete_the_only_match {R} (P : nat * R → Prop) `{!∀ x, Decision (P x)}
    (m : gmap nat R) id r :
  filter P m = {[id := r]} →
  delete id m = filter (λ row, ¬ P row) m.
Proof.
  intros Hone. apply map_eq. intros i.
  destruct (decide (i = id)) as [-> | Hne].
  - rewrite lookup_delete_eq. symmetry. apply map_lookup_filter_None_2.
    destruct (m !! id) as [x |] eqn:Hx; [right | by left].
    intros y [= <-] Hnot. apply Hnot.
    assert (Hin : filter P m !! id = Some r)
      by (rewrite Hone; apply lookup_singleton_eq).
    apply map_lookup_filter_Some in Hin as [Hm HP]. congruence.
  - rewrite lookup_delete_ne by done.
    destruct (m !! i) as [x |] eqn:Hx.
    + symmetry. apply map_lookup_filter_Some_2; [done |].
      intros HP. simpl in HP.
      assert (Hin : filter P m !! i = Some x)
        by (by apply map_lookup_filter_Some_2).
      rewrite Hone, lookup_singleton_ne in Hin by done. discriminate.
    + symmetry. apply map_lookup_filter_None_2. by left.
Qed.

Lemma no_match_left {R} (P : nat * R → Prop) `{!∀ x, Decision (P x)}
    (m : gmap nat R) :
  filter P (filter (λ row, ¬ P row) m) = ∅.
Proof.
  apply map_empty. intros i. apply map_lookup_filter_None_2.
  destruct (filter (λ row, ¬ P row) m !! i) as [x |] eqn:Hx; [right | by left].
  intros y [= <-]. by apply map_lookup_filter_Some in Hx as [_ Hnot].
Qed.

Section Redeem.
Variables (self : Options.BaseUserGroupConfiguration) (request : HttpRequest).
Variables (group_id : nat) (key : string) (ec : option (gmap string Value)).
Variables (db : Database) (u : nat) (g : UserGroup).
Hypothesis Huser : user request = User u.
Hypothesis Hg : usergroups db !! group_id = Some g.

Lemma validate_unknown_key :
  filter (has_secret_key key) (email_invitations db) = ∅ →
  Options.validate_email_invitation self request group_id key ec db
  = (db, inr (direct_to_template "usergroups/invalid_invitation.html" ∅)).
Proof.
  intros Hnone.
  unfold Options.validate_email_invitation, login_required. rewrite Huser.
  rewrite bind_run, (get_object_or_404_found _ _ _ _ Hg).
  rewrite bind_run. unfold try_except.
  by rewrite bind_run, (objects_get_none _ _ _ _ Hnone).
Qed.

Lemma validate_unique_key id invitation :
  filter (has_secret_key key) (email_invitations db) = {[id := invitation]} →
  Options.validate_email_invitation self request group_id key ec db
  = (redeemed u group_id key db, inr (joined_response self group_id)).
Proof.
  intros Hone.
  unfold Options.validate_email_invitation, login_required. rewrite Huser.
  rewrite bind_run, (get_object_or_404_found _ _ _ _ Hg).
  rewrite bind_run. unfold try_except.
  rewrite bind_run, (objects_get_one _ _ _ _ _ _ Hone).
  unfold members_add. eff. cbn [pk].
  unfold redeemed, joined_response, with_email_invitations.
  by rewrite (delete_the_only_match _ _ _ _ Hone).
Qed.

Lemma validate_duplicate_key :
  1 < size (filter (has_secret_key key) (email_invitations db)) →
  Options.validate_email_invitation self request group_id key ec db
  = (redeemed u group_id key db, inr (joined_response self group_id)).
Proof.
  intros Hmany.
  unfold Options.validate_email_invitation, login_required. rewrite Huser.
  rewrite bind_run, (get_object_or_404_found _ _ _ _ Hg).
  rewrite bind_run. unfold try_except.
  by rewrite bind_run, (objects_get_many _ _ _ _ Hmany).
Qed.

Lemma redeemed_facts :
  filter (has_secret_key key) (email_invitations (redeemed u group_id key db))
  = ∅
  ∧ members_of (redeemed u group_id key db) group_id = {[u]} ∪ members g
  ∧ u ∈ members_of (redeemed u group_id key db) group_id.
Proof.
  unfold redeemed.
  rewrite (members_of_alter _ group_id g) by exact Hg.
  split; [apply no_match_left |]. simpl.
  split; [done |]. apply elem_of_union. left. by apply elem_of_singleton.
Qed.
End Redeem.

(** C2, as stated, fails: [bob], no member of group 10, redeems the key "k"
    that two stored invitations carry; both invitations are deleted and
    [bob] is a member afterwards. *)
Lemma duplicate_key_grants_membership : ¬ redemption_as_stated.
Proof.
  intros Hclaim.
  destruct (Hclaim the_config (post_by bob) 10 "k" None dup_db bob solo_group
              eq_refl eq_refl) as (_ & _ & Hdup).
  destruct Hdup as [_ Hmembers]; [vm_compute; lia |].
  assert (Hbob : bob ∈ members solo_group).
  { rewrite <- Hmembers. by vm_compute. }
  by vm_compute in Hbob.
Qed.

(** C2, amended: redeeming a key that exactly one stored invitation carries
    deletes that invitation and makes the user a member; a key that no
    invitation carries changes nothing and renders the invalid-invitation
    page; a key that several invitations carry deletes all of them and makes
    the user a member as well.  In both redeeming cases the other
    invitations stay and the answer redirects to the group-joined view. *)
Theorem validate_email_invitation_redeems
    self request group_id key ec db u g :
  user request = User u →
  usergroups db !! group_id = Some g →
  (size (filter (has_secret_key key) (email_invitations db)) = 0 →
   Options.validate_email_invitation self request group_id key ec db
   = (db, inr (direct_to_template "usergroups/invalid_invitation.html" ∅)))
  ∧ (1 ≤ size (filter (has_secret_key key) (email_invitations db)) →
     Options.validate_email_invitation self request group_id key ec db
     = (redeemed u group_id key db, inr (joined_response self group_id))
     ∧ filter (has_secret_key key)
         (email_invitations (redeemed u group_id key db)) = ∅
     ∧ email_invitations (redeemed u group_id key db)
       = filter (λ row, ¬ has_secret_key key row) (email_invitations db)
     ∧ members_of (redeemed u group_id key db) group_id = {[u]} ∪ members g
     ∧ u ∈ members_of (redeemed u group_id key db) group_id).
Proof.
  intros Huser Hg. split.
  - intros Hzero. apply map_size_empty_inv in Hzero.
    exact (validate_unknown_key self request group_id key ec db u g
             Huser Hg Hzero).
  - intros Hsome.
    destruct (redeemed_facts group_id key db u g Hg) as (Hgone & Hset & Hin).
    split; [| by repeat split].
    destruct (decide (size (filter (has_secret_key key) (email_invitations db))
                      = 1)) as [Hone | Hmore].
    + destruct (map_size_1_singleton _ Hone) as (id & invitation & Hfilter).
      exact (validate_unique_key self request group_id key ec db u g
               Huser Hg id invitation Hfilter).
    + apply (validate_duplicate_key self request group_id key ec db u g
               Huser Hg). lia.
Qed.

Lemma validate_email_invitation_redeems_witness :
  (size (filter (has_secret_key "k") (email_invitations dup_db)) = 0 →
   Options.validate_email_invitation the_config (post_by bob) 10 "k" None dup_db
   = (dup_db, inr (direct_to_template "usergroups/invalid_invitation.html" ∅)))
  ∧ (1 ≤ size (filter (has_secret_key "k") (email_invitations dup_db)) →
     Options.validate_email_invitation the_config (post_by bob) 10 "k" None
       dup_db
     = (redeemed bob 10 "k" dup_db, inr (joined_response the_config 10))
     ∧ filter (has_secret_key "k")
         (email_invitations (redeemed bob 10 "k" dup_db)) = ∅
     ∧ email_invitations (redeemed bob 10 "k" dup_db)
       = filter (λ row, ¬ has_secret_key "k" row) (email_invitations dup_db)
     ∧ members_of (redeemed bob 10 "k" dup_db) 10 = {[bob]} ∪ members solo_group
     ∧ bob ∈ members_of (redeemed bob 10 "k" dup_db) 10).
Proof.
  apply (validate_email_invitation_redeems
           the_config (post_by bob) 10 "k" None dup_db bob solo_group).
  - reflexivity.
  - reflexivity.
Defined.

(** * Further properties of the code *)

(** ** The registry *)

(** Registering a model that extends [BaseUserGroup] under a free key
    succeeds; [get] then returns the configuration built for it, whose slug
    is the key, and every other key answers as before. *)
Theorem register_then_get configurations key model_arg notification_installed :
  configurations !! key = None →
  Options.extends_BaseUserGroup model_arg = true →
  (Options.register configurations key model_arg
     (Options.init notification_installed)).2 = inr ()
  ∧ Options.get
      (Options.register configurations key model_arg
         (Options.init notification_installed)).1 key
    = inr (Options.mkRegistered
             (Options.mkConfiguration key notification_installed) model_arg)
  ∧ (∀ other, other ≠ key →
     Options.get
       (Options.register configurations key model_arg
          (Options.init notification_installed)).1 other
     = Options.get configurations other).
Proof.
  intros Hfree Hextends. unfold Options.register, Options.init.
  rewrite Hfree, Hextends. cbn [negb fst snd]. split; [done |].
  unfold Options.get. split.
  - by rewrite lookup_insert_eq.
  - intros other Hne. by rewrite lookup_insert_ne.
Qed.

Lemma register_then_get_witness :
  (Options.register ∅ "team" (Options.mkModelClass "Team" true)
     (Options.init false)).2 = inr ()
  ∧ Options.get
      (Options.register ∅ "team" (Options.mkModelClass "Team" true)
         (Options.init false)).1 "team"
    = inr (Options.mkRegistered (Options.mkConfiguration "team" false)
             (Options.mkModelClass "Team" true))
  ∧ (∀ other, other ≠ "team" →
     Options.get
       (Options.register ∅ "team" (Options.mkModelClass "Team" true)
          (Options.init false)).1 other
     = Options.get ∅ other).
Proof.
  apply (register_then_get ∅ "team" (Options.mkModelClass "Team" true) false).
  - reflexivity.
  - reflexivity.
Defined.

(** The first registration of a key wins: once a key is registered, a
    second [register] of it raises [ConfigurationAlreadyRegistered] whatever
    model and configuration class it is given (the class is not even
    called), and the registry stays as it was. *)
Theorem register_taken_key configurations key instance model_arg class :
  configurations !! key = Some instance →
  Options.register configurations key model_arg class
  = (configurations, inl Options.ConfigurationAlreadyRegistered)
  ∧ Options.get (Options.register configurations key model_arg class).1 key
    = inr instance.
Proof.
  intros Htaken. unfold Options.register, Options.get. rewrite Htaken.
  cbn [fst]. by rewrite Htaken.
Qed.

Lemma register_taken_key_witness :
  Options.register
    {["team" := Options.mkRegistered (Options.mkConfiguration "team" false)
                  (Options.mkModelClass "Team" true)]}
    "team" (Options.mkModelClass "Other" false) (Options.init true)
  = ({["team" := Options.mkRegistered (Options.mkConfiguration "team" false)
                   (Options.mkModelClass "Team" true)]},
     inl Options.ConfigurationAlreadyRegistered)
  ∧ Options.get
      (Options.register
         {["team" := Options.mkRegistered (Options.mkConfiguration "team" false)
                       (Options.mkModelClass "Team" true)]}
         "team" (Options.mkModelClass "Other" false) (Options.init true)).1
      "team"
    = inr (Options.mkRegistered (Options.mkConfiguration "team" false)
             (Options.mkModelClass "Team" true)).
Proof.
  apply (register_taken_key _ "team"
           (Options.mkRegistered (Options.mkConfiguration "team" false)
              (Options.mkModelClass "Team" true))).
  reflexivity.
Defined.

(** A model that does not extend [BaseUserGroup] is refused with
    [ValueError] and nothing is registered: [get] of the key still raises
    [ConfigurationNotRegistered]. *)
Theorem register_foreign_model configurations key model_arg
    notification_installed :
  configurations !! key = None →
  Options.extends_BaseUserGroup model_arg = false →
  Options.register configurations key model_arg
    (Options.init notification_installed)
  = (configurations,
     inl (Options.ValueError
            "The model used in usergroups must extend BaseUserGroup."))
  ∧ Options.get
      (Options.register configurations key model_arg
         (Options.init notification_installed)).1 key
    = inl Options.ConfigurationNotRegistered.
Proof.
  intros Hfree Hforeign. unfold Options.register, Options.init, Options.get.
  rewrite Hfree, Hforeign. cbn [negb fst]. by rewrite Hfree.
Qed.

Lemma register_foreign_model_witness :
  Options.register ∅ "team" (Options.mkModelClass "Other" false)
    (Options.init false)
  = (∅, inl (Options.ValueError
               "The model used in usergroups must extend BaseUserGroup."))
  ∧ Options.get
      (Options.register ∅ "team" (Options.mkModelClass "Other" false)
         (Options.init false)).1 "team"
    = inl Options.ConfigurationNotRegistered.
Proof.
  apply (register_foreign_model ∅ "team" (Options.mkModelClass "Other" false)
           false).
  - reflexivity.
  - reflexivity.
Defined.

(** ** What every view of [options.py] does before it acts *)

Ltac open_views :=
  unfold options_call, perform,
    Options.edit_group, Options.delete_group, Options.remove_member,
    Options.add_admin, Options.revoke_admin, Options.leave_group,
    Options.create_email_invitation, Options.validate_email_invitation,
    Options.approve_application, Options.ignore_application,
    Options.apply_to_join_group, Options.confirmation, Options.has_permission,
    login_required, get_object_or_404, get_user_or_404, admins_all,
    members_all, admins_count.

Ltac split_cases := repeat case_match; simplify_eq/=; try done.

(** An anonymous visitor is sent to the log-in page by every view of
    [options.py] that takes a group, and the store is not touched. *)
Theorem anonymous_sent_to_login self request group_id ec c db :
  user request = AnonymousUser →
  options_call self request group_id ec c db
  = (db, inr (HttpResponseRedirect LOGIN_URL)).
Proof.
  intros Hanon. destruct c as [[] | | |]; open_views; by rewrite Hanon.
Qed.

Lemma anonymous_sent_to_login_witness :
  options_call the_config (mkHttpRequest "POST" AnonymousUser false None 50)
    10 None LeaveGroup solo_db
  = (solo_db, inr (HttpResponseRedirect LOGIN_URL)).
Proof.
  apply (anonymous_sent_to_login the_config
           (mkHttpRequest "POST" AnonymousUser false None 50) 10 None
           LeaveGroup solo_db).
  reflexivity.
Defined.

Lemma options_call_missing_group self request group_id ec c db u :
  user request = User u →
  usergroups db !! group_id = None →
  options_call self request group_id ec c db = (db, inl Http404).
Proof.
  intros Huser Hnone.
  destruct c as [[] | | |]; open_views; rewrite Huser; eff;
    rewrite ?Hnone; split_cases.
Qed.

(** A logged-in request that names a group which is not stored ends in
    [Http404] in every view of [options.py], for every method, target and
    form content; the store is not touched and the framework answers 404. *)
Theorem missing_group_is_404 self request group_id ec c db u :
  user request = User u →
  usergroups db !! group_id = None →
  options_call self request group_id ec c db = (db, inl Http404)
  ∧ serve (options_call self request group_id ec c db).2 = Respond 404.
Proof.
  intros Huser Hnone.
  by rewrite (options_call_missing_group _ _ _ _ _ _ _ Huser Hnone).
Qed.

Lemma missing_group_is_404_witness :
  options_call the_config (post_by alice) 11 None (Admin (RemoveMember bob))
    solo_db = (solo_db, inl Http404)
  ∧ serve (options_call the_config (post_by alice) 11 None
             (Admin (RemoveMember bob)) solo_db).2 = Respond 404.
Proof.
  apply (missing_group_is_404 the_config (post_by alice) 11 None
           (Admin (RemoveMember bob)) solo_db alice).
  - reflexivity.
  - reflexivity.
Defined.

(** The views that delete a group, change members or admins, or handle an
    application write only on a POST: with any other method they leave the
    store exactly as it was, whoever asks and whatever the path names. *)
Theorem other_methods_do_not_write self request group_id ec c db :
  post_gated c = true →
  method request ≠ "POST" →
  (options_call self request group_id ec c db).1 = db.
Proof.
  intros Hgated Hget.
  destruct c as [[] | | |]; try discriminate Hgated; open_views; eff;
    rewrite (not_POST_true _ Hget); split_cases.
Qed.

Lemma other_methods_do_not_write_witness :
  (options_call the_config (get_by alice) 10 None (Admin (RemoveMember bob))
     team_db).1 = team_db.
Proof.
  apply (other_methods_do_not_write the_config (get_by alice) 10 None
           (Admin (RemoveMember bob)) team_db).
  - reflexivity.
  - discriminate.
Defined.

(** ** [views.py]: [edit_group] *)

(** The edit view of [views.py] never writes, whatever the request. *)
Lemma views_edit_group_never_writes request group_id db :
  (Views.edit_group request group_id db).1 = db.
Proof.
  unfold Views.edit_group, group_admin_required, get_object_or_404,
    is_admin, admins_all. eff. split_cases.
Qed.

(** A valid POST of the edit form by an admin is answered by [views.py]
    with a redirect to the group while the store, and with it the group's
    columns, stays as it was: the form is validated and never saved. *)
Theorem views_edit_group_never_saves request group_id db actor g data :
  user request = User actor →
  usergroups db !! group_id = Some g →
  actor ∈ admins g →
  method request = "POST" →
  POST request = Some data →
  form_is_valid data = true →
  Views.edit_group request group_id db
  = (db, inr (HttpResponseRedirect (get_absolute_url group_id))).
Proof.
  intros Huser Hg Hadm Hpost Hdata Hvalid.
  unfold Views.edit_group, group_admin_required.
  rewrite bind_run, (get_object_or_404_found _ _ _ _ Hg).
  rewrite bind_run, is_admin_run, Huser. cbn [pk].
  rewrite (admins_of_found _ _ _ Hg), (bool_decide_eq_true_2 _ Hadm).
  rewrite Hpost, Hdata. cbn [String.eqb form_valid]. simpl.
  by rewrite Hvalid.
Qed.

Lemma views_edit_group_never_saves_witness :
  Views.edit_group
    (mkHttpRequest "POST" (User alice) false
       (Some (mkFormData true "Renamed" [])) 50) 10 solo_db
  = (solo_db, inr (HttpResponseRedirect (get_absolute_url 10))).
Proof.
  apply (views_edit_group_never_saves
           (mkHttpRequest "POST" (User alice) false
              (Some (mkFormData true "Renamed" [])) 50)
           10 solo_db alice solo_group (mkFormData true "Renamed" []));
    reflexivity.
Defined.

(** ** What every view keeps *)

Lemma members_of_set_admins f gid gid' db :
  members_of (with_usergroups (alter (set_admins f) gid) db) gid'
  = members_of db gid'.
Proof.
  unfold members_of, with_usergroups. cbn [usergroups].
  destruct (decide (gid = gid')) as [-> | Hne].
  - rewrite lookup_alter_eq. by destruct (usergroups db !! gid').
  - by rewrite lookup_alter_ne.
Qed.

(** [objects.get] only reads. *)
Lemma objects_get_store {R} model (table : Database → gmap nat R)
    (P : nat * R → Prop) `{!∀ x, Decision (P x)} db d r :
  objects_get model table P db = (d, r) → d = db.
Proof.
  unfold objects_get. eff.
  destruct (map_to_list (filter P (table db))) as [| [i x] [| ? ?]];
    by intros [= <- _].
Qed.

Ltac pure_reads :=
  repeat match goal with
         | H : objects_get _ _ _ _ = (_, _) |- _ =>
             apply objects_get_store in H; subst
         end.

Ltac open_writes :=
  unfold remove_admin, members_remove, admins_add, members_add, group_delete,
    application_delete, notification_send, try_except,
    applications_create, application_touch, form_save.

(** A property [Q] of the store that survives each kind of write the views
    make on the group [gid] survives every view called for that group. *)
Section Stable.
Variables (Q : Database → Prop) (gid : nat).
Hypothesis Q_applications : ∀ f db, Q db → Q (with_applications f db).
Hypothesis Q_invitations : ∀ f db, Q db → Q (with_email_invitations f db).
Hypothesis Q_outbox : ∀ f db, Q db → Q (with_outbox f db).
Hypothesis Q_delete : ∀ db, Q db → Q (with_usergroups (delete gid) db).
Hypothesis Q_rename : ∀ n db, Q db →
  Q (with_usergroups (alter (λ g, {| name := n; creator := creator g;
                                     members := members g;
                                     admins := admins g |}) gid) db).
Hypothesis Q_join : ∀ u db, Q db →
  Q (with_usergroups (alter (set_members (λ s, {[u]} ∪ s)) gid) db).
Hypothesis Q_demote : ∀ u db, Q db →
  Q (with_usergroups (alter (set_admins (λ s, s ∖ {[u]})) gid) db).
Hypothesis Q_remove : ∀ u db, Q db →
  Q (with_usergroups (alter (set_members (λ s, s ∖ {[u]})) gid)
       (with_usergroups (alter (set_admins (λ s, s ∖ {[u]})) gid) db)).
Hypothesis Q_promote_member : ∀ u db, Q db → u ∈ members_of db gid →
  Q (with_usergroups (alter (set_admins (λ s, {[u]} ∪ s)) gid) db).
Hypothesis Q_promote : ∀ u db, Q db →
  Q (with_usergroups (alter (set_members (λ s, {[u]} ∪ s)) gid)
       (with_usergroups (alter (set_admins (λ s, {[u]} ∪ s)) gid) db)).



Ltac promote_known_member :=
  try (apply Q_promote_member; [done |];
       match goal with
       | H : bool_decide _ = false |- _ =>
           apply bool_decide_eq_false in H;
           rewrite members_of_set_admins in H;
           by apply dec_stable in H
       end).


End Stable.

#[local] Set Warnings "-clear-no-such-hyp".

Lemma with_usergroups_alter_twice f h gid db :
  with_usergroups (alter f gid) (with_usergroups (alter h gid) db)
  = with_usergroups (alter (f ∘ h) gid) db.
Proof.
  rewrite with_usergroups_compose. unfold with_usergroups. simpl.
  by rewrite alter_alter_eq.
Qed.












(** ** The AJAX flag *)

(** The AJAX flag of a request decides the outcome only: the store a view
    of [options.py] leaves behind is the same with and without it. *)
Theorem ajax_flag_does_not_change_store self request group_id ec c db flag :
  (options_call self (with_ajax flag request) group_id ec c db).1
  = (options_call self request group_id ec c db).1.
Proof.
  destruct c as [[] | | |]; open_views; open_writes; eff;
    cbn [method user POST now is_ajax with_ajax].
  all: repeat case_match; pure_reads; simplify_eq; done.
Qed.

(** ** [remove_member] on another user *)

Lemma removed_sets u group_id g db :
  usergroups db !! group_id = Some g →
  members_of (with_usergroups (alter (removed u) group_id) db) group_id
  = members g ∖ {[u]}
  ∧ admins_of (with_usergroups (alter (removed u) group_id) db) group_id
    = admins g ∖ {[u]}.
Proof.
  intros Hg.
  by rewrite (members_of_alter _ _ _ _ Hg), (admins_of_alter _ _ _ _ Hg).
Qed.

Lemma Options_remove_member_run self request group_id user_id ec db actor g :
  user request = User actor →
  method request = "POST" →
  usergroups db !! group_id = Some g →
  user_id ∈ auth_user db →
  permitted actor g →
  user_id ≠ actor →
  Options.remove_member self request group_id user_id ec db
  = (with_usergroups (alter (removed user_id) group_id) db,
     if is_ajax request then inl (NameError "user")
     else inr (HttpResponseRedirect
                 (reverse "usergroups_group_detail" (Options.slug self)
                    [group_id]))).
Proof.
  intros Huser Hpost Hg Hu Hperm Hother.
  unfold Options.remove_member, login_required. rewrite Huser.
  rewrite bind_run, (get_user_or_404_found _ _ Hu).
  rewrite bind_run, (get_object_or_404_found _ _ _ _ Hg).
  rewrite bind_run, has_permission_run. cbn [pk fields].
  rewrite (admins_of_found _ _ _ Hg), (permitted_true _ _ Hperm).
  cbn [negb]. rewrite (bool_decide_eq_false_2 _ Hother).
  rewrite (not_POST_false _ Hpost).
  unfold remove_admin, members_remove. eff. cbn [pk].
  rewrite with_usergroups_alter_twice. by destruct (is_ajax request).
Qed.

(** A permitted actor's POST of [remove_member] for another, existing user
    takes exactly that user out of the group's members and admins; the
    answer is a redirect to the group page (an AJAX request ends in
    [NameError] after the removal). *)
Theorem remove_member_removes self request group_id user_id ec db actor g :
  user request = User actor →
  method request = "POST" →
  usergroups db !! group_id = Some g →
  user_id ∈ auth_user db →
  permitted actor g →
  user_id ≠ actor →
  Options.remove_member self request group_id user_id ec db
  = (with_usergroups (alter (removed user_id) group_id) db,
     if is_ajax request then inl (NameError "user")
     else inr (HttpResponseRedirect
                 (reverse "usergroups_group_detail" (Options.slug self)
                    [group_id])))
  ∧ members_of (Options.remove_member self request group_id user_id ec db).1
      group_id = members g ∖ {[user_id]}
  ∧ admins_of (Options.remove_member self request group_id user_id ec db).1
      group_id = admins g ∖ {[user_id]}.
Proof.
  intros Huser Hpost Hg Hu Hperm Hother.
  rewrite (Options_remove_member_run _ _ _ _ _ _ _ _
             Huser Hpost Hg Hu Hperm Hother).
  cbn [fst]. split; [done |]. by apply removed_sets.
Qed.

Lemma remove_member_removes_witness :
  Options.remove_member the_config (post_by alice) 10 carol None board_db
  = (with_usergroups (alter (removed carol) 10) board_db,
     if is_ajax (post_by alice) then inl (NameError "user")
     else inr (HttpResponseRedirect
                 (reverse "usergroups_group_detail"
                    (Options.slug the_config) [10])))
  ∧ members_of (Options.remove_member the_config (post_by alice) 10 carol None
                  board_db).1 10 = members board_group ∖ {[carol]}
  ∧ admins_of (Options.remove_member the_config (post_by alice) 10 carol None
                 board_db).1 10 = admins board_group ∖ {[carol]}.
Proof.
  apply (remove_member_removes the_config (post_by alice) 10 carol None
           board_db alice board_group).
  - reflexivity.
  - reflexivity.
  - reflexivity.
  - by vm_compute.
  - left. reflexivity.
  - discriminate.
Defined.

(** In [views.py] an admin's [remove_member] takes the named user out of
    members and admins on any request method, also when the admin names
    themself: there is no detour over [leave_group]. *)
Theorem views_remove_member_removes request group_id user_id db actor g :
  user request = User actor →
  usergroups db !! group_id = Some g →
  user_id ∈ auth_user db →
  actor ∈ admins g →
  Views.remove_member request group_id user_id db
  = (with_usergroups (alter (removed user_id) group_id) db,
     inr (HttpResponseRedirect (get_absolute_url group_id)))
  ∧ members_of (Views.remove_member request group_id user_id db).1 group_id
    = members g ∖ {[user_id]}
  ∧ admins_of (Views.remove_member request group_id user_id db).1 group_id
    = admins g ∖ {[user_id]}.
Proof.
  intros Huser Hg Hu Hadm.
  assert (Hrun : Views.remove_member request group_id user_id db
    = (with_usergroups (alter (removed user_id) group_id) db,
       inr (HttpResponseRedirect (get_absolute_url group_id)))).
  { unfold Views.remove_member, login_required, group_admin_required.
    rewrite Huser.
    rewrite bind_run, (get_object_or_404_found _ _ _ _ Hg).
    rewrite bind_run, is_admin_run. cbn [pk].
    rewrite (admins_of_found _ _ _ Hg), (bool_decide_eq_true_2 _ Hadm).
    rewrite bind_run, (get_user_or_404_found _ _ Hu).
    unfold remove_admin, members_remove. eff. cbn [pk].
    by rewrite with_usergroups_alter_twice. }
  rewrite Hrun. cbn [fst]. split; [done |]. by apply removed_sets.
Qed.

Lemma views_remove_member_removes_witness :
  Views.remove_member (get_by alice) 10 alice solo_db
  = (with_usergroups (alter (removed alice) 10) solo_db,
     inr (HttpResponseRedirect (get_absolute_url 10)))
  ∧ members_of (Views.remove_member (get_by alice) 10 alice solo_db).1 10
    = members solo_group ∖ {[alice]}
  ∧ admins_of (Views.remove_member (get_by alice) 10 alice solo_db).1 10
    = admins solo_group ∖ {[alice]}.
Proof.
  apply (views_remove_member_removes (get_by alice) 10 alice solo_db alice
           solo_group).
  - reflexivity.
  - reflexivity.
  - by vm_compute.
  - by vm_compute.
Defined.

(** ** [leave_group] in general *)

Lemma not_sole_admin u (s : gset nat) :
  s ≠ {[u]} → bool_decide (size s = 1) && bool_decide (u ∈ s) = false.
Proof.
  intros Hne. apply andb_false_iff.
  destruct (decide (size s = 1)) as [Hone | Hmore].
  - right. apply bool_decide_eq_false_2. intros Hin. apply Hne.
    apply size_1_elem_of in Hone as [x Hx]. apply leibniz_equiv in Hx.
    rewrite Hx in Hin |- *. apply elem_of_singleton in Hin. by rewrite Hin.
  - left. by apply bool_decide_eq_false_2.
Qed.

Lemma Options_leave_group_run self request group_id ec db u g :
  user request = User u →
  method request = "POST" →
  usergroups db !! group_id = Some g →
  admins g ≠ {[u]} →
  Options.leave_group self request group_id ec db
  = (with_usergroups (alter (removed u) group_id) db,
     if is_ajax request then inl (NameError "json_response")
     else inr (HttpResponseRedirect
                 (reverse "usergroups_group_detail" (Options.slug self)
                    [group_id]))).
Proof.
  intros Huser Hpost Hg Hnot.
  unfold Options.leave_group, login_required. rewrite Huser.
  rewrite bind_run, (get_object_or_404_found _ _ _ _ Hg).
  rewrite (not_POST_false _ Hpost).
  unfold admins_count, admins_all. eff. cbn [pk].
  rewrite (admins_of_found _ _ _ Hg), (not_sole_admin _ _ Hnot).
  unfold remove_admin, members_remove. eff. cbn [pk].
  rewrite with_usergroups_alter_twice. by destruct (is_ajax request).
Qed.

(** A logged-in user who is not the group's only admin and posts
    [leave_group] is taken out of the members and the admins, nobody else
    is; there is no membership check, so for a user who was neither the two
    sets stay as they were. *)
Theorem leave_group_leaves self request group_id ec db u g :
  user request = User u →
  method request = "POST" →
  usergroups db !! group_id = Some g →
  admins g ≠ {[u]} →
  Options.leave_group self request group_id ec db
  = (with_usergroups (alter (removed u) group_id) db,
     if is_ajax request then inl (NameError "json_response")
     else inr (HttpResponseRedirect
                 (reverse "usergroups_group_detail" (Options.slug self)
                    [group_id])))
  ∧ members_of (Options.leave_group self request group_id ec db).1 group_id
    = members g ∖ {[u]}
  ∧ admins_of (Options.leave_group self request group_id ec db).1 group_id
    = admins g ∖ {[u]}.
Proof.
  intros Huser Hpost Hg Hnot.
  rewrite (Options_leave_group_run _ _ _ _ _ _ _ Huser Hpost Hg Hnot).
  cbn [fst]. split; [done |]. by apply removed_sets.
Qed.

Lemma leave_group_leaves_witness :
  Options.leave_group the_config (post_by bob) 10 None board_db
  = (with_usergroups (alter (removed bob) 10) board_db,
     if is_ajax (post_by bob) then inl (NameError "json_response")
     else inr (HttpResponseRedirect
                 (reverse "usergroups_group_detail"
                    (Options.slug the_config) [10])))
  ∧ members_of (Options.leave_group the_config (post_by bob) 10 None
                  board_db).1 10 = members board_group ∖ {[bob]}
  ∧ admins_of (Options.leave_group the_config (post_by bob) 10 None
                 board_db).1 10 = admins board_group ∖ {[bob]}.
Proof.
  apply (leave_group_leaves the_config (post_by bob) 10 None board_db bob
           board_group).
  - reflexivity.
  - reflexivity.
  - reflexivity.
  - intros Hsame.
    assert (Halice : alice ∈ admins board_group) by (by vm_compute).
    rewrite Hsame in Halice. by vm_compute in Halice.
Defined.

(** A group that has an admin still has one after [leave_group] of
    [options.py], whoever calls it, with whatever method, AJAX or not. *)
Theorem leave_group_keeps_an_admin self request group_id ec db :
  admins_of db group_id ≠ ∅ →
  admins_of (Options.leave_group self request group_id ec db).1 group_id ≠ ∅.
Proof.
  intros Hsome.
  destruct (user request) as [| u] eqn:Huser.
  { unfold Options.leave_group, login_required. by rewrite Huser. }
  destruct (usergroups db !! group_id) as [g |] eqn:Hg.
  2: { unfold admins_of in Hsome. by rewrite Hg in Hsome. }
  destruct (decide (method request = "POST")) as [Hpost | Hget].
  2: { unfold Options.leave_group, login_required. rewrite Huser.
       rewrite bind_run, (get_object_or_404_found _ _ _ _ Hg).
       by rewrite (not_POST_true _ Hget). }
  destruct (decide (admins g = {[u]})) as [Hsole | Hnot].
  - by rewrite (Options_leave_group_sole_admin _ _ _ _ _ _ _ Huser Hpost Hg Hsole).
  - rewrite (Options_leave_group_run _ _ _ _ _ _ _ Huser Hpost Hg Hnot).
    cbn [fst]. rewrite (proj2 (removed_sets u group_id g db Hg)).
    rewrite (admins_of_found _ _ _ Hg) in Hsome.
    destruct (decide (u ∈ admins g)) as [Hin | Hout].
    + intros Hempty. apply Hnot. apply set_eq. intros x.
      rewrite elem_of_singleton. split; [| by intros ->].
      intros Hx. destruct (decide (x = u)) as [| Hne]; [done |].
      assert (Hleft : x ∈ admins g ∖ {[u]}).
      { apply elem_of_difference. split; [done |]. by rewrite elem_of_singleton. }
      rewrite Hempty in Hleft. by apply not_elem_of_empty in Hleft.
    + intros Hempty. apply Hsome. apply set_eq. intros x. split.
      * intros Hx. rewrite <- Hempty. apply elem_of_difference.
        split; [done |]. rewrite elem_of_singleton. by intros ->.
      * intros Hx. by apply not_elem_of_empty in Hx.
Qed.

Lemma leave_group_keeps_an_admin_witness :
  admins_of (Options.leave_group the_config (post_by alice) 10 None solo_db).1
    10 ≠ ∅.
Proof.
  apply (leave_group_keeps_an_admin the_config (post_by alice) 10 None solo_db).
  intros Hempty.
  assert (Halice : alice ∈ admins_of solo_db 10) by (by vm_compute).
  rewrite Hempty in Halice. by vm_compute in Halice.
Defined.

(** ** Applications *)

Lemma approved_store_tables self group_id application_id applicant db :
  usergroups (approved_store self group_id application_id applicant db)
  = alter (set_members (λ s, {[applicant]} ∪ s)) group_id (usergroups db)
  ∧ applications (approved_store self group_id application_id applicant db)
    = delete application_id (applications db).
Proof. unfold approved_store. by destruct (Options.notification self). Qed.

Lemma Options_approve_application_run
    self request group_id application_id ec db actor g application :
  user request = User actor →
  method request = "POST" →
  usergroups db !! group_id = Some g →
  applications db !! application_id = Some application →
  permitted actor g →
  Options.approve_application self request group_id application_id ec db
  = (approved_store self group_id application_id
       (application_user application) db,
     if is_ajax request then inl (NameError "json_response")
     else inr (HttpResponseRedirect
                 (reverse "usergroups_group_detail" (Options.slug self)
                    [group_id]))).
Proof.
  intros Huser Hpost Hg Ha Hperm.
  unfold Options.approve_application, login_required. rewrite Huser.
  rewrite bind_run, (get_object_or_404_found _ _ _ _ Hg).
  rewrite bind_run, (get_object_or_404_found _ _ _ _ Ha).
  rewrite bind_run, has_permission_run. cbn [pk fields].
  rewrite (admins_of_found _ _ _ Hg), (permitted_true _ _ Hperm).
  cbn [negb]. rewrite (not_POST_false _ Hpost).
  unfold members_add, application_delete, notification_send, approved_store.
  eff. cbn [pk fields].
  destruct (Options.notification self); eff; by destruct (is_ajax request).
Qed.

(** A permitted actor's POST of [approve_application] makes the applicant a
    member of the group named in the path and deletes the application; the
    other applications stay.  The view never compares the application's own
    group with the path, so an application filed for another group is
    approved into this one. *)
Theorem approve_application_admits
    self request group_id application_id ec db actor g application :
  user request = User actor →
  method request = "POST" →
  usergroups db !! group_id = Some g →
  applications db !! application_id = Some application →
  permitted actor g →
  Options.approve_application self request group_id application_id ec db
  = (approved_store self group_id application_id
       (application_user application) db,
     if is_ajax request then inl (NameError "json_response")
     else inr (HttpResponseRedirect
                 (reverse "usergroups_group_detail" (Options.slug self)
                    [group_id])))
  ∧ members_of (approved_store self group_id application_id
                  (application_user application) db) group_id
    = {[application_user application]} ∪ members g
  ∧ applications (approved_store self group_id application_id
                    (application_user application) db)
    = delete application_id (applications db).
Proof.
  intros Huser Hpost Hg Ha Hperm. split; [| split].
  - exact (Options_approve_application_run self request group_id
             application_id ec db actor g application
             Huser Hpost Hg Ha Hperm).
  - unfold members_of.
    rewrite (proj1 (approved_store_tables _ _ _ _ _)), lookup_alter_eq, Hg.
    reflexivity.
  - apply approved_store_tables.
Qed.

(** Application 7 of [board_db] was filed by user 4 for group 11. *)
Lemma approve_application_admits_witness :
  Options.approve_application the_config (post_by alice) 10 7 None board_db
  = (approved_store the_config 10 7 4 board_db,
     if is_ajax (post_by alice) then inl (NameError "json_response")
     else inr (HttpResponseRedirect
                 (reverse "usergroups_group_detail"
                    (Options.slug the_config) [10])))
  ∧ members_of (approved_store the_config 10 7 4 board_db) 10
    = {[4]} ∪ members board_group
  ∧ applications (approved_store the_config 10 7 4 board_db)
    = delete 7 (applications board_db).
Proof.
  apply (approve_application_admits the_config (post_by alice) 10 7 None
           board_db alice board_group (mkUserGroupApplication 4 11 20)).
  - reflexivity.
  - reflexivity.
  - reflexivity.
  - reflexivity.
  - left. reflexivity.
Defined.

(** An application can be approved once: after a successful approval, any
    logged-in request to approve the same application ends in [Http404] and
    writes nothing. *)
Theorem approve_application_once
    self request again group_id application_id ec db actor g application u :
  user request = User actor →
  method request = "POST" →
  usergroups db !! group_id = Some g →
  applications db !! application_id = Some application →
  permitted actor g →
  user again = User u →
  Options.approve_application self again group_id application_id ec
    (Options.approve_application self request group_id application_id ec db).1
  = ((Options.approve_application self request group_id application_id ec
        db).1,
     inl Http404).
Proof.
  intros Huser Hpost Hg Ha Hperm Hagain.
  rewrite (Options_approve_application_run _ _ _ _ _ _ _ _ _
             Huser Hpost Hg Ha Hperm).
  cbn [fst].
  destruct (approved_store_tables self group_id application_id
              (application_user application) db) as [Hgroups Happs].
  unfold Options.approve_application, login_required. rewrite Hagain.
  unfold get_object_or_404. eff.
  rewrite Hgroups, lookup_alter_eq, Hg. cbn [fmap option_fmap option_map].
  by rewrite Happs, lookup_delete_eq.
Qed.

Lemma approve_application_once_witness :
  Options.approve_application the_config (post_by bob) 10 7 None
    (Options.approve_application the_config (post_by alice) 10 7 None
       board_db).1
  = ((Options.approve_application the_config (post_by alice) 10 7 None
        board_db).1,
     inl Http404).
Proof.
  apply (approve_application_once the_config (post_by alice) (post_by bob) 10 7
           None board_db alice board_group (mkUserGroupApplication 4 11 20)
           bob).
  - reflexivity.
  - reflexivity.
  - reflexivity.
  - reflexivity.
  - left. reflexivity.
  - reflexivity.
Defined.

(** A permitted actor's POST of [ignore_application] deletes the
    application and nothing else: no group changes, nobody is notified. *)
Theorem ignore_application_discards
    self request group_id application_id ec db actor g application :
  user request = User actor →
  method request = "POST" →
  usergroups db !! group_id = Some g →
  applications db !! application_id = Some application →
  permitted actor g →
  Options.ignore_application self request group_id application_id ec db
  = (with_applications (delete application_id) db,
     if is_ajax request then inl (NameError "json_response")
     else inr (HttpResponseRedirect
                 (reverse "usergroups_group_detail" (Options.slug self)
                    [group_id]))).
Proof.
  intros Huser Hpost Hg Ha Hperm.
  unfold Options.ignore_application, login_required. rewrite Huser.
  rewrite bind_run, (get_object_or_404_found _ _ _ _ Hg).
  rewrite bind_run, (get_object_or_404_found _ _ _ _ Ha).
  rewrite bind_run, has_permission_run. cbn [pk fields].
  rewrite (admins_of_found _ _ _ Hg), (permitted_true _ _ Hperm).
  cbn [negb]. rewrite (not_POST_false _ Hpost).
  unfold application_delete. eff. cbn [pk]. by destruct (is_ajax request).
Qed.

Lemma ignore_application_discards_witness :
  Options.ignore_application the_config (post_by alice) 10 7 None board_db
  = (with_applications (delete 7) board_db,
     if is_ajax (post_by alice) then inl (NameError "json_response")
     else inr (HttpResponseRedirect
                 (reverse "usergroups_group_detail"
                    (Options.slug the_config) [10]))).
Proof.
  apply (ignore_application_discards the_config (post_by alice) 10 7 None
           board_db alice board_group (mkUserGroupApplication 4 11 20)).
  - reflexivity.
  - reflexivity.
  - reflexivity.
  - reflexivity.
  - left. reflexivity.
Defined.

(** ** Repeating a request *)

Lemma removed_idempotent u g : removed u (removed u g) = removed u g.
Proof.
  unfold removed, demoted, set_members, set_admins. simpl.
  f_equal; set_solver.
Qed.

Lemma demoted_idempotent u g : demoted u (demoted u g) = demoted u g.
Proof.
  unfold demoted, set_admins. simpl. f_equal. set_solver.
Qed.

Lemma alter_twice_same (f : UserGroup → UserGroup) gid db :
  (∀ g, f (f g) = f g) →
  with_usergroups (alter f gid) (with_usergroups (alter f gid) db)
  = with_usergroups (alter f gid) db.
Proof.
  intros Hf. rewrite with_usergroups_alter_twice. unfold with_usergroups.
  f_equal. apply alter_ext. intros g _. apply Hf.
Qed.

Lemma lookup_altered f gid g db :
  usergroups db !! gid = Some g →
  usergroups (with_usergroups (alter f gid) db) !! gid = Some (f g).
Proof.
  intros Hg. unfold with_usergroups. cbn [usergroups].
  by rewrite lookup_alter_eq, Hg.
Qed.

(** Posting [revoke_admin] or [remove_member] a second time with the same
    arguments leaves the store as the first call left it, also when the
    first call took the actor's own admin right away (the second is then
    refused) and when the actor names themself. *)
Theorem removals_twice_as_once self request group_id user_id ec db actor g :
  user request = User actor →
  method request = "POST" →
  usergroups db !! group_id = Some g →
  user_id ∈ auth_user db →
  permitted actor g →
  (Options.revoke_admin self request group_id user_id ec
     (Options.revoke_admin self request group_id user_id ec db).1).1
  = (Options.revoke_admin self request group_id user_id ec db).1
  ∧ (Options.remove_member self request group_id user_id ec
       (Options.remove_member self request group_id user_id ec db).1).1
    = (Options.remove_member self request group_id user_id ec db).1.
Proof.
  intros Huser Hpost Hg Hu Hperm. split.
  - rewrite (Options_revoke_admin_run _ _ _ _ _ _ _ _ Huser Hpost Hg Hu Hperm).
    cbn [fst].
    pose proof (lookup_altered (demoted user_id) _ _ _ Hg) as Hg1.
    destruct (decide (actor = creator (demoted user_id g))) as [Hc | Hnc];
      [| destruct (decide (actor ∈ admins (demoted user_id g))) as [Ha | Hna]].
    + rewrite (Options_revoke_admin_run _ _ _ _ _ _ _ _ Huser Hpost Hg1 Hu
                 (or_introl Hc)).
      cbn [fst]. apply alter_twice_same, demoted_idempotent.
    + rewrite (Options_revoke_admin_run _ _ _ _ _ _ _ _ Huser Hpost Hg1 Hu
                 (or_intror Ha)).
      cbn [fst]. apply alter_twice_same, demoted_idempotent.
    + assert (Hno : ¬ permitted actor (demoted user_id g))
        by (intros [Hc | Ha]; [by apply Hnc | by apply Hna]).
      rewrite (revoke_admin_refused self request group_id ec _ actor _
                 Huser Hg1 Hno user_id Hu).
      reflexivity.
  - destruct (decide (user_id = actor)) as [Hself | Hother].
    + assert (Hredirect : ∀ d, usergroups d !! group_id = Some g →
                user_id ∈ auth_user d →
                (Options.remove_member self request group_id user_id ec d).1 = d).
      { intros d Hd Hud.
        unfold Options.remove_member, login_required. rewrite Huser.
        rewrite bind_run, (get_user_or_404_found _ _ Hud).
        rewrite bind_run, (get_object_or_404_found _ _ _ _ Hd).
        rewrite bind_run, has_permission_run. cbn [pk fields].
        rewrite (admins_of_found _ _ _ Hd), (permitted_true _ _ Hperm).
        cbn [negb]. by rewrite (bool_decide_eq_true_2 _ Hself). }
      by rewrite !(Hredirect db Hg Hu).
    + rewrite (Options_remove_member_run _ _ _ _ _ _ _ _
                 Huser Hpost Hg Hu Hperm Hother).
      cbn [fst].
      pose proof (lookup_altered (removed user_id) _ _ _ Hg) as Hg1.
      assert (Hperm1 : permitted actor (removed user_id g)).
      { destruct Hperm as [Hc | Ha]; [by left | right]. simpl.
        apply elem_of_difference. split; [done |].
        rewrite elem_of_singleton. by intros ->. }
      rewrite (Options_remove_member_run _ _ _ _ _ _ _ _
                 Huser Hpost Hg1 Hu Hperm1 Hother).
      cbn [fst]. apply alter_twice_same, removed_idempotent.
Qed.

Lemma removals_twice_as_once_witness :
  (Options.revoke_admin the_config (post_by bob) 10 bob None
     (Options.revoke_admin the_config (post_by bob) 10 bob None board_db).1).1
  = (Options.revoke_admin the_config (post_by bob) 10 bob None board_db).1
  ∧ (Options.remove_member the_config (post_by bob) 10 bob None
       (Options.remove_member the_config (post_by bob) 10 bob None
          board_db).1).1
    = (Options.remove_member the_config (post_by bob) 10 bob None board_db).1.
Proof.
  apply (removals_twice_as_once the_config (post_by bob) 10 bob None board_db
           bob board_group).
  - reflexivity.
  - reflexivity.
  - reflexivity.
  - by vm_compute.
  - right. by vm_compute.
Defined.

(** A secret key redeems once: after a redemption (of one invitation or of
    several that share the key) any logged-in request with the same key gets
    the invalid-invitation page and writes nothing. *)
Theorem invitation_key_works_once
    self request again group_id key ec db u v g :
  user request = User u →
  user again = User v →
  usergroups db !! group_id = Some g →
  1 ≤ size (filter (has_secret_key key) (email_invitations db)) →
  Options.validate_email_invitation self again group_id key ec
    (Options.validate_email_invitation self request group_id key ec db).1
  = ((Options.validate_email_invitation self request group_id key ec db).1,
     inr (direct_to_template "usergroups/invalid_invitation.html" ∅)).
Proof.
  intros Huser Hagain Hg Hsome.
  assert (Hfirst : Options.validate_email_invitation self request group_id key
                     ec db
                   = (redeemed u group_id key db,
                      inr (joined_response self group_id))).
  { destruct (decide (size (filter (has_secret_key key) (email_invitations db))
                      = 1)) as [Hone | Hmore].
    - destruct (map_size_1_singleton _ Hone) as (id & invitation & Hfilter).
      exact (validate_unique_key self request group_id key ec db u g
               Huser Hg id invitation Hfilter).
    - apply (validate_duplicate_key self request group_id key ec db u g
               Huser Hg). lia. }
  rewrite Hfirst. cbn [fst].
  destruct (redeemed_facts group_id key db u g Hg) as (Hgone & _ & _).
  apply (validate_unknown_key self again group_id key ec _ v
           (set_members (λ s, {[u]} ∪ s) g) Hagain); [| exact Hgone].
  unfold redeemed. by apply lookup_altered.
Qed.

Lemma invitation_key_works_once_witness :
  Options.validate_email_invitation the_config (post_by carol) 10 "k" None
    (Options.validate_email_invitation the_config (post_by bob) 10 "k" None
       dup_db).1
  = ((Options.validate_email_invitation the_config (post_by bob) 10 "k" None
        dup_db).1,
     inr (direct_to_template "usergroups/invalid_invitation.html" ∅)).
Proof.
  apply (invitation_key_works_once the_config (post_by bob) (post_by carol) 10
           "k" None dup_db bob carol solo_group).
  - reflexivity.
  - reflexivity.
  - reflexivity.
  - vm_compute. lia.
Defined.

(** ** After a deletion *)

(** Once a permitted actor has posted [delete_group], the group is gone for
    every view of [options.py]: whatever a logged-in user asks of it next
    ends in [Http404] and writes nothing. *)
Theorem deleted_group_is_gone self request again group_id ec c db actor g u :
  user request = User actor →
  method request = "POST" →
  usergroups db !! group_id = Some g →
  permitted actor g →
  user again = User u →
  (Options.delete_group self request group_id ec db).2
  = inr (HttpResponseRedirect
           (reverse "usergroups_delete_group_done" (Options.slug self) []))
  ∧ options_call self again group_id ec c
      (Options.delete_group self request group_id ec db).1
    = ((Options.delete_group self request group_id ec db).1, inl Http404).
Proof.
  intros Huser Hpost Hg Hperm Hagain.
  rewrite (Options_delete_group_deletes _ _ _ _ _ _ _ Huser Hpost Hg Hperm).
  cbn [fst snd]. split; [done |].
  apply (options_call_missing_group _ _ _ _ _ _ u Hagain).
  unfold with_usergroups. cbn [usergroups]. apply lookup_delete_eq.
Qed.

Lemma deleted_group_is_gone_witness :
  (Options.delete_group the_config (post_by alice) 10 None board_db).2
  = inr (HttpResponseRedirect
           (reverse "usergroups_delete_group_done"
              (Options.slug the_config) []))
  ∧ options_call the_config (post_by bob) 10 None LeaveGroup
      (Options.delete_group the_config (post_by alice) 10 None board_db).1
    = ((Options.delete_group the_config (post_by alice) 10 None board_db).1,
       inl Http404).
Proof.
  apply (deleted_group_is_gone the_config (post_by alice) (post_by bob) 10 None
           LeaveGroup board_db alice board_group bob).
  - reflexivity.
  - reflexivity.
  - reflexivity.
  - left. reflexivity.
  - reflexivity.
Defined.

(** ** Forms that do not validate *)

(** When the submitted form does not validate (or nothing was submitted),
    [edit_group] and [create_email_invitation] write nothing, whoever asks:
    the group keeps its columns and no invitation is created. *)
Theorem invalid_form_writes_nothing self request group_id ec db :
  form_valid (POST request) = false →
  (Options.edit_group self request group_id ec db).1 = db
  ∧ (Options.create_email_invitation self request group_id ec db).1 = db.
Proof.
  intros Hinvalid. split; open_views; eff; rewrite Hinvalid;
    repeat case_match; simplify_eq; done.
Qed.

Lemma invalid_form_writes_nothing_witness :
  (Options.edit_group the_config
     (mkHttpRequest "POST" (User alice) false
        (Some (mkFormData false "" [])) 50) 10 None board_db).1 = board_db
  ∧ (Options.create_email_invitation the_config
       (mkHttpRequest "POST" (User alice) false
          (Some (mkFormData false "" [])) 50) 10 None board_db).1 = board_db.
Proof.
  apply (invalid_form_writes_nothing the_config
           (mkHttpRequest "POST" (User alice) false
              (Some (mkFormData false "" [])) 50) 10 None board_db).
  reflexivity.
Defined.
